(** * Text-to-frequency pipeline and chart data of [app.py]

    A shallow embedding of the pure part of [app.py]: [preprocess_text],
    [segment_and_count], [draw_word_cloud], [create_chart],
    [render_pyechart] and the control flow of [main].

    Python values are embedded as follows.
    - [str] is a sequence of Unicode code points ([list Z]); the regular
      expressions of [preprocess_text] work on code points.
    - [int] is [Z].
    - [set] of strings is [gset (list Z)].
    - [collections.Counter] is an insertion-ordered dictionary: an association
      list with unique keys, new keys appended at the end.
    - an exception is the [Raise] case of [result].
    - the streamlit / pyecharts calls are recorded, in order, as [event]s. *)

From Stdlib Require Import ZArith List String Ascii Sorted Permutation Lia.
From stdpp Require Import base decidable list sorting gmap.

Abbreviation char := Z (only parsing).
Abbreviation str := (list Z) (only parsing).

(** ** String literals *)

Local Open Scope Z_scope.

(** Rocq string literals are byte strings; the source file is UTF-8, so a
    literal of the source is decoded from UTF-8 to code points. *)
Fixpoint utf8_decode (bs : list Z) : str :=
  match bs with
  | [] => []
  | b0 :: r0 =>
    if b0 <? 128 then b0 :: utf8_decode r0
    else
      match r0 with
      | [] => []
      | b1 :: r1 =>
        if b0 <? 224 then
          Z.lor (Z.shiftl (Z.land b0 31) 6) (Z.land b1 63) :: utf8_decode r1
        else
          match r1 with
          | [] => []
          | b2 :: r2 =>
            if b0 <? 240 then
              Z.lor (Z.shiftl (Z.land b0 15) 12)
                (Z.lor (Z.shiftl (Z.land b1 63) 6) (Z.land b2 63))
                :: utf8_decode r2
            else
              match r2 with
              | [] => []
              | b3 :: r3 =>
                Z.lor (Z.shiftl (Z.land b0 7) 18)
                  (Z.lor (Z.shiftl (Z.land b1 63) 12)
                     (Z.lor (Z.shiftl (Z.land b2 63) 6) (Z.land b3 63)))
                  :: utf8_decode r3
              end
          end
      end
  end.

Definition lit (s : string) : str :=
  utf8_decode (List.map (fun a => Z.of_nat (nat_of_ascii a)) (list_ascii_of_string s)).

(** The empty string. *)
Definition EMPTY : str := [].

(** ** Character classes *)

(** The class [\u4e00-\u9fffA-Za-z] kept by the second substitution. *)
Definition is_cjk (c : char) : bool := (19968 <=? c) && (c <=? 40959).
Definition is_ascii_letter (c : char) : bool :=
  ((65 <=? c) && (c <=? 90)) || ((97 <=? c) && (c <=? 122)).
Definition in_alphabet (c : char) : bool := is_cjk c || is_ascii_letter c.

(** [\s] on a [str] pattern, and the characters removed by [str.strip()]:
    the code points for which [str.isspace] holds. *)
Definition isspace (c : char) : bool :=
  ((9 <=? c) && (c <=? 13)) || ((28 <=? c) && (c <=? 32))
  || (c =? 133) || (c =? 160) || (c =? 5760)
  || ((8192 <=? c) && (c <=? 8202))
  || (c =? 8232) || (c =? 8233) || (c =? 8239) || (c =? 8287) || (c =? 12288).

Definition SPACE : char := 32.
Definition NEWLINE : char := 10.
Definition LT : char := 60.
Definition GT : char := 62.

Local Close Scope Z_scope.

(** ** Regular-expression substitution *)

(** [re.sub(pattern, repl, text)] replaces the leftmost non-overlapping
    matches. A pattern is given by its matcher: [m s = Some k] when the
    pattern matches a prefix of [s], of length [k]. None of the three
    patterns of [preprocess_text] matches the empty string. The argument
    [skip] counts the characters of the current match still to be consumed. *)
Fixpoint re_sub_from (m : str -> option nat) (repl : str) (skip : nat) (s : str) : str :=
  match s with
  | [] => []
  | c :: s' =>
    match skip with
    | S k => re_sub_from m repl k s'
    | O =>
      match m s with
      | Some (S k) => repl ++ re_sub_from m repl k s'
      | _ => c :: re_sub_from m repl 0 s'
      end
    end
  end.

Definition re_sub (m : str -> option nat) (repl : str) (text : str) : str :=
  re_sub_from m repl 0 text.

(** [.*?>] after an opening [<]: the shortest run of characters other than
    newline that is followed by [>]; the result counts the run and the [>]. *)
Fixpoint lazy_dots_gt (s : str) : option nat :=
  match s with
  | [] => None
  | c :: s' =>
    if (c =? GT)%Z then Some 1
    else if (c =? NEWLINE)%Z then None
    else option_map S (lazy_dots_gt s')
  end.

(** [<.*?>] *)
Definition pat_tag (s : str) : option nat :=
  match s with
  | c :: s' => if (c =? LT)%Z then option_map S (lazy_dots_gt s') else None
  | [] => None
  end.

(** [[^\u4e00-\u9fffA-Za-z]] *)
Definition pat_other (s : str) : option nat :=
  match s with
  | c :: _ => if in_alphabet c then None else Some 1
  | [] => None
  end.

(** Length of the longest prefix of whitespace. *)
Fixpoint space_run (s : str) : nat :=
  match s with
  | c :: s' => if isspace c then S (space_run s') else 0
  | [] => 0
  end.

(** [\s+] (greedy) *)
Definition pat_spaces (s : str) : option nat :=
  match space_run s with
  | O => None
  | n => Some n
  end.

(** ** [str.strip()] *)

Fixpoint lstrip (s : str) : str :=
  match s with
  | c :: s' => if isspace c then lstrip s' else s
  | [] => []
  end.

Definition rstrip (s : str) : str := reverse (lstrip (reverse s)).

Definition strip (s : str) : str := rstrip (lstrip s).

(** ** [preprocess_text] *)

Definition preprocess_text (text : str) : str :=
  let text := re_sub pat_tag [] text in
  let text := re_sub pat_other [SPACE] text in
  strip (re_sub pat_spaces [SPACE] text).

(** ** Exceptions *)

Inductive exn : Type :=
| ValueError          (* [max()] of an empty sequence *)
| IndexError          (* [Pie().add] on an empty list of pairs *)
| RequestException    (* raised inside [fetch_text_from_url] *)
| OSError.            (* [open('stopwords.txt')] *)

Inductive result (A : Type) : Type :=
| Ok (a : A)
| Raise (e : exn).

Arguments Ok {A} a.
Arguments Raise {A} e.

#[global] Instance result_ret : MRet result := fun A a => Ok a.
#[global] Instance result_bind : MBind result := fun A B f r =>
  match r with
  | Ok a => f a
  | Raise e => Raise e
  end.

(** ** [collections.Counter] *)

Abbreviation Counter := (list (str * Z)) (only parsing).

(** [mapping.get(key, default)] *)
Fixpoint get (m : Counter) (key : str) (default : Z) : Z :=
  match m with
  | [] => default
  | (k, v) :: m' => if decide (k = key) then v else get m' key default
  end.

(** [mapping[key] = value]: an existing key keeps its place, a new key is
    added at the end. *)
Fixpoint setitem (m : Counter) (key : str) (value : Z) : Counter :=
  match m with
  | [] => [(key, value)]
  | (k, v) :: m' =>
    if decide (k = key) then (k, value) :: m' else (k, v) :: setitem m' key value
  end.

(** [Counter(iterable)]: for each element, [mapping[elem] = mapping.get(elem, 0) + 1]. *)
Definition count_elements (mapping : Counter) (iterable : list str) : Counter :=
  fold_left (fun mapping elem => setitem mapping elem (get mapping elem 0 + 1)%Z)
    iterable mapping.

Definition Counter_of (iterable : list str) : Counter := count_elements [] iterable.

Definition items (m : Counter) : list (str * Z) := m.
Definition keys (m : Counter) : list str := List.map fst m.
Definition values (m : Counter) : list Z := List.map snd m.

(** [sorted(iterable, key=itemgetter(1), reverse=True)]: a stable sort, items
    with equal counts keep the order they have in [iterable]. *)
Fixpoint insert_desc (x : str * Z) (l : list (str * Z)) : list (str * Z) :=
  match l with
  | [] => [x]
  | y :: l' => if (snd y <=? snd x)%Z then x :: l else y :: insert_desc x l'
  end.

Definition sorted_desc (l : list (str * Z)) : list (str * Z) :=
  foldr insert_desc [] l.

(** [Counter.most_common(n)] with an integer [n] is
    [heapq.nlargest(n, self.items(), key=itemgetter(1))], which the library
    documents as [sorted(iterable, key=key, reverse=True)[:n]] and which is
    empty for [n <= 0]. *)
Definition most_common (m : Counter) (n : Z) : list (str * Z) :=
  if (n <=? 0)%Z then [] else take (Z.to_nat n) (sorted_desc (items m)).

(** ** [segment_and_count] *)

(** [word.strip() and word not in stopwords] *)
Definition keep_word (stopwords : gset str) (word : str) : bool :=
  negb (bool_decide (strip word = [])) && bool_decide (word ∉ stopwords).

(** The comprehension [[word for word in tokens if word.strip() and word not in stopwords]]. *)
Definition filter_words (tokens : list str) (stopwords : gset str) : list str :=
  List.filter (keep_word stopwords) tokens.

Section Segmentation.
(** [jieba.cut], the segmentation backend. *)
Variable cut : str -> list str.

Definition segment_and_count (text : str) (stopwords : gset str) : Counter :=
  let words := filter_words (cut text) stopwords in
  Counter_of words.
End Segmentation.

(** ** Charts *)

(** A pyecharts chart, by the data its builder calls received: [add_xaxis],
    [add_yaxis] / [add] / [add_schema], [reversal_axis], the [areastyle_opts]
    of the area chart and the title. The remaining options only concern
    presentation (axis names, label rotation, toolbox, zoom, radius, legend,
    label format, word size range, shape). *)
Inductive chart : Type :=
| WordCloud (series_name : str) (data_pair : list (str * Z)) (title : str)
| Bar (xaxis : list str) (series_name : str) (yaxis : list Z)
      (reversal_axis : bool) (title : str)
| Pie (series_name : str) (data_pair : list (str * Z)) (title : str)
| Line (xaxis : list str) (series_name : str) (yaxis : list Z)
       (areastyle : bool) (title : str)
| Scatter (xaxis : list str) (series_name : str) (yaxis : list Z) (title : str)
| Radar (schema : list (str * Z)) (series_name : str) (data : list (list Z))
        (title : str).

(** The category axis and the value series of a rectangular chart. *)
Definition xaxis_data (c : chart) : option (list str) :=
  match c with
  | Bar xs _ _ _ _ | Line xs _ _ _ _ | Scatter xs _ _ _ => Some xs
  | _ => None
  end.

Definition yaxis_data (c : chart) : option (list Z) :=
  match c with
  | Bar _ _ ys _ _ | Line _ _ ys _ _ | Scatter _ _ ys _ => Some ys
  | _ => None
  end.

Definition axes_reversed (c : chart) : bool :=
  match c with
  | Bar _ _ _ r _ => r
  | _ => false
  end.

(** The data [Pie().add(series_name, data_pair, ...)] takes: pyecharts
    looks at [data_pair[0]], so that an empty list of pairs raises
    [IndexError]. *)
Definition pie_add (data_pair : list (str * Z)) : result (list (str * Z)) :=
  match data_pair with
  | [] => Raise IndexError
  | _ => Ok data_pair
  end.

(** [max(counts)] *)
Definition py_max (l : list Z) : result Z :=
  match l with
  | [] => Raise ValueError
  | x :: l' => Ok (fold_left Z.max l' x)
  end.

Definition create_chart (chart_type : str) (word_counts : Counter) (top_n : Z)
  : result (option chart) :=
  let top_words := most_common word_counts top_n in
  let '(words, counts) :=
    match top_words with
    | [] => ([], [])
    | _ => (List.map fst top_words, List.map snd top_words)   (* zip( *top_words) *)
    end in
  if decide (chart_type = lit "垂直条形图") then
    Ok (Some (Bar words (lit "词频") counts false (lit "垂直条形图")))
  else if decide (chart_type = lit "水平条形图") then
    Ok (Some (Bar words (lit "词频") counts true (lit "水平条形图")))
  else if decide (chart_type = lit "饼图") then
    data_pair ← pie_add (zip words counts);
    Ok (Some (Pie EMPTY data_pair (lit "饼图")))
  else if decide (chart_type = lit "折线图") then
    Ok (Some (Line words (lit "词频") counts false (lit "折线图")))
  else if decide (chart_type = lit "散点图") then
    Ok (Some (Scatter words (lit "词频") counts (lit "散点图")))
  else if decide (chart_type = lit "雷达图") then
    schema ← mapM (fun word => max_ ← py_max counts; mret (word, max_)) words;
    Ok (Some (Radar schema (lit "词频") [counts] (lit "雷达图")))
  else if decide (chart_type = lit "面积图") then
    Ok (Some (Line words (lit "词频") counts true (lit "面积图")))
  else
    Ok None.

(** The chart kinds [create_chart] has a branch for. *)
Definition chart_kinds : list str :=
  [lit "垂直条形图"; lit "水平条形图"; lit "饼图"; lit "折线图"; lit "散点图";
   lit "雷达图"; lit "面积图"].

(** ** Effects: the calls to streamlit and to the chart renderer *)

Inductive html_source : Type :=
| FileContents (path : str)     (* [open(path).read()] *)
| RenderEmbed (c : chart).      (* [chart.render_embed()] *)

Inductive event : Type :=
| StTitle (body : str)
| StWarning (body : str)
| StSpinner (body : str)
| StWrite (body : str)
| ChartRender (c : chart) (path : str)                          (* [chart.render(path)] *)
| ComponentsHtml (html : html_source) (width height : option Z).

(** A computation emits events and returns a value or raises. *)
Definition M (A : Type) : Type := (list event * result A)%type.

#[global] Instance M_ret : MRet M := fun A a => ([], Ok a).
#[global] Instance M_bind : MBind M := fun A B f m =>
  match m with
  | (t, Ok a) => let '(t', r) := f a in (t ++ t', r)
  | (t, Raise e) => (t, Raise e)
  end.

Definition emit (e : event) : M unit := ([e], Ok tt).
Definition lift {A : Type} (r : result A) : M A := ([], r).

(** [for x in l: body(x)] *)
Fixpoint for_each {A : Type} (l : list A) (body : A -> M unit) : M unit :=
  match l with
  | [] => mret tt
  | x :: l' => body x;; for_each l' body
  end.

(** [str(n)] for an [int]. *)
Fixpoint digits (d : Decimal.uint) : str :=
  match d with
  | Decimal.Nil => []
  | Decimal.D0 d' => 48%Z :: digits d'
  | Decimal.D1 d' => 49%Z :: digits d'
  | Decimal.D2 d' => 50%Z :: digits d'
  | Decimal.D3 d' => 51%Z :: digits d'
  | Decimal.D4 d' => 52%Z :: digits d'
  | Decimal.D5 d' => 53%Z :: digits d'
  | Decimal.D6 d' => 54%Z :: digits d'
  | Decimal.D7 d' => 55%Z :: digits d'
  | Decimal.D8 d' => 56%Z :: digits d'
  | Decimal.D9 d' => 57%Z :: digits d'
  end.

Definition str_of_int (n : Z) : str :=
  match Z.to_int n with
  | Decimal.Pos d => digits d
  | Decimal.Neg d => 45%Z :: digits d
  end.

Definition TEMP_DIR : str := lit "./temp".

(** [os.path.join(a, b)] on POSIX. *)
Definition path_join (a b : str) : str :=
  match b with
  | 47%Z :: _ => b
  | _ =>
    match last a with
    | None | Some 47%Z => a ++ b
    | Some _ => a ++ 47%Z :: b
    end
  end.

Definition draw_word_cloud (word_counts : Counter) (filename : str) : M unit :=
  let word_cloud := WordCloud (EMPTY) (items word_counts) (lit "词云") in
  emit (ChartRender word_cloud (path_join TEMP_DIR filename)).

(** [if chart: components.html(...)]; [None] is false, a chart object is true. *)
Definition render_pyechart (chart : option chart) : M unit :=
  match chart with
  | Some c => emit (ComponentsHtml (RenderEmbed c) (Some 1000%Z) (Some 800%Z))
  | None => mret tt
  end.

(** ** [main] *)

(** What one execution of the script reads from outside. *)
Record session : Type := {
  text_input : str;                    (* [st.text_input(...)] *)
  selectbox : str;                     (* [st.sidebar.selectbox(...)] *)
  button : bool;                       (* [st.button(...)] *)
  fetch_text_from_url : str -> result str;
  stopwords_txt : result (list str);   (* the lines of stopwords.txt *)
  jieba_cut : str -> list str
}.

(** streamlit returns one of the options of the select box; the record
    allows any string, so that [main] is defined on more runs than occur. *)

(** The options offered by the select box. *)
Definition selectbox_options : list str :=
  [lit "词云"; lit "垂直条形图"; lit "水平条形图"; lit "饼图"; lit "折线图";
   lit "散点图"; lit "雷达图"; lit "面积图"].

Definition main (w : session) : M unit :=
  emit (StTitle (lit "文章URL文本分析工具"));;
  let url := text_input w in
  let chart_type := selectbox w in
  if decide (url = EMPTY) then
    emit (StWarning (lit "请输入有效的URL以进行分析！"))
  else if button w then
    emit (StSpinner (lit "正在处理..."));;
    text ← lift (fetch_text_from_url w url);
    let processed_text := preprocess_text text in
    lines ← lift (stopwords_txt w);
    let stopwords : gset str := list_to_set (List.map strip lines) in
    let word_counts := segment_and_count (jieba_cut w) processed_text stopwords in
    draw_word_cloud word_counts (lit "wordcloud.html");;
    emit (StWrite (lit "词频最高的20个词："));;
    let top_words := most_common word_counts 20 in
    for_each top_words (fun '(word, count) =>
      emit (StWrite (word ++ lit ": " ++ str_of_int count)));;
    if decide (chart_type = lit "词云") then
      emit (ComponentsHtml (FileContents (path_join TEMP_DIR (lit "wordcloud.html")))
              None (Some 600%Z))
    else
      chart ← lift (create_chart chart_type word_counts 20);
      render_pyechart chart
  else
    mret tt.

(** ** [fetch_text_from_url] *)

(** The response of [requests.get]: its status code and its body decoded
    as UTF-8 ([response.encoding = 'utf-8'], then [response.text]). *)
Record response : Type := {
  status_code : Z;
  text : str
}.

(** [response.raise_for_status()]: an [HTTPError], which is a
    [RequestException], for a client or server error status. *)
Definition raise_for_status (r : response) : result unit :=
  if ((400 <=? status_code r) && (status_code r <? 600))%Z
  then Raise RequestException else Ok tt.

(** [separator.join(strings)] *)
Fixpoint join (separator : str) (strings : list str) : str :=
  match strings with
  | [] => []
  | [x] => x
  | x :: strings' => x ++ separator ++ join separator strings'
  end.

(** [tag.get_text(strip=True, separator=separator)] on the strings of the
    tag: each is stripped, the empty ones are skipped, the rest joined. *)
Definition fragments (strings : list str) : list str :=
  List.filter (fun s => negb (bool_decide (s = []))) (List.map strip strings).

Definition get_text (strings : list str) (separator : str) : str :=
  join separator (fragments strings).

Module Fetcher.
Section Fetch.

(** [requests.get(url, headers=headers)]; it raises when the request fails. *)
Variable requests_get : str -> result response.

(** [BeautifulSoup(text, 'html.parser').body]: the strings below the body
    element that [get_text] visits, in document order; [None] when the page
    has no body. *)
Variable soup_body : str -> option (list str).

Definition fetch_text_from_url (url : str) : result str :=
  response ← requests_get url;
  raise_for_status response;;
  match soup_body (text response) with
  | Some strings => Ok (get_text strings [NEWLINE])
  | None => Ok EMPTY
  end.

End Fetch.
End Fetcher.

(** ** Predicates used in the statements *)

(** A CJK ideograph (U+4E00 to U+9FFF) or an ASCII letter. *)
Definition is_letter (c : char) : Prop :=
  (0x4E00 <= c <= 0x9FFF)%Z \/ (65 <= c <= 90)%Z \/ (97 <= c <= 122)%Z.

(** The first character, if any, is not whitespace. *)
Definition starts_clean (s : str) : Prop :=
  forall c, head s = Some c -> isspace c = false.

(** The last character, if any, is not whitespace. *)
Definition ends_clean (s : str) : Prop :=
  forall c, last s = Some c -> isspace c = false.

(** No whitespace character is followed by another one. *)
Fixpoint single_spaced (s : str) : Prop :=
  match s with
  | [] => True
  | c :: s' => (isspace c = true -> starts_clean s') /\ single_spaced s'
  end.

(** [sum(counter.values())] *)
Definition total (m : Counter) : Z := foldr Z.add 0%Z (values m).

(** [words.count(w)] *)
Fixpoint list_count (w : str) (words : list str) : Z :=
  match words with
  | [] => 0
  | v :: words' => ((if decide (v = w) then 1 else 0) + list_count w words')%Z
  end.

(** [p] is the position of the first occurrence of [w] in [words]. *)
Definition first_occ (words : list str) (w : str) (p : nat) : Prop :=
  words !! p = Some w /\ forall q, q < p -> words !! q <> Some w.

(** [w1] occurs in [words], and so does [w2], for the first time later. *)
Definition occurs_before (words : list str) (w1 w2 : str) : Prop :=
  exists p1 p2, first_occ words w1 p1 /\ first_occ words w2 p2 /\ p1 < p2.

(** [a] ranks before [b]: a larger count, or the same count and an earlier
    place in the original order [T]. *)
Definition ranks_before (T : str * Z -> str * Z -> Prop) (a b : str * Z) : Prop :=
  (snd b < snd a)%Z \/ (snd a = snd b /\ T a b).

(** [m] is the greatest element of [l]. *)
Definition is_max (m : Z) (l : list Z) : Prop :=
  m ∈ l /\ Forall (fun v => (v <= m)%Z) l.

(** The kinds drawn on a category axis and a value axis. *)
Definition axis_kinds : list str :=
  [lit "垂直条形图"; lit "水平条形图"; lit "折线图"; lit "散点图"; lit "面积图"].

(** The one case in which [create_chart] raises: the pie chart of a
    ranking without entries. *)
Definition pie_without_entries (chart_type : str) (word_counts : Counter) (top_n : Z)
  : Prop :=
  chart_type = lit "饼图" /\ most_common word_counts top_n = [].

(** The lines [main] writes for the ranked entries. *)
Definition top_lines (top_words : list (str * Z)) : list event :=
  List.map (fun '(word, count) => StWrite (word ++ lit ": " ++ str_of_int count))
    top_words.

(** What a submitted run emits before it comes to the chart: the title, the
    spinner, the word cloud written to its file, the heading and the ranked
    entries. *)
Definition analysis_events (word_counts : Counter) : list event :=
  [ StTitle (lit "文章URL文本分析工具");
    StSpinner (lit "正在处理...");
    ChartRender (WordCloud (EMPTY) (items word_counts) (lit "词云"))
      (lit "./temp/wordcloud.html");
    StWrite (lit "词频最高的20个词：") ]
  ++ top_lines (most_common word_counts 20).

(** The substitution of [\s+] seen as a two-state scanner: [in_run] tells
    whether the previous character was whitespace. *)
Fixpoint squeeze (in_run : bool) (s : str) : str :=
  match s with
  | [] => []
  | c :: s' =>
    if isspace c then (if in_run then squeeze true s' else SPACE :: squeeze true s')
    else c :: squeeze false s'
  end.

(** The letters of a string, in order. *)
Definition letters (s : str) : str := List.filter in_alphabet s.

(** The shape of a normalized text: letters and spaces only, no two
    whitespace characters in a row, none at either end. *)
Definition normalized (s : str) : Prop :=
  Forall (fun c => is_letter c \/ c = SPACE) s
  /\ single_spaced s /\ starts_clean s /\ ends_clean s.

(** Some character of the string is not whitespace. *)
Definition has_visible (s : str) : Prop :=
  exists c, c ∈ s /\ isspace c = false.

(** ** Inputs for the examples *)

(** A stand-in for [jieba.cut] on Latin text: the runs of characters other
    than the space, and every space as a token of its own. *)
Fixpoint space_cut_from (cur : str) (s : str) : list str :=
  match s with
  | [] => match cur with [] => [] | _ => [cur] end
  | c :: s' =>
    if (c =? SPACE)%Z then
      match cur with [] => [] | _ => [cur] end ++ [c] :: space_cut_from [] s'
    else space_cut_from (cur ++ [c]) s'
  end.

Definition space_cut (s : str) : list str := space_cut_from [] s.

(** A submitted run on a page with the text of the scenario. *)
Definition demo_session (chart_type : str) : session :=
  {| text_input := lit "http://example.org/";
     selectbox := chart_type;
     button := true;
     fetch_text_from_url := fun _ => Ok (lit "<p>the cat sat on the mat, the cat ran.</p>");
     stopwords_txt := Ok [lit "the" ++ [NEWLINE]; lit "on" ++ [NEWLINE]];
     jieba_cut := space_cut |}.

Definition demo_words : list str :=
  [lit "cat"; lit "sat"; lit "mat"; lit "cat"; lit "ran"].

(** A run without URL, on which fetching would raise. *)
Definition idle_session : session :=
  {| text_input := EMPTY; selectbox := lit "词云"; button := true;
     fetch_text_from_url := fun _ => Raise RequestException;
     stopwords_txt := Raise OSError; jieba_cut := space_cut |}.

(** A submitted run on a page that cannot be fetched. *)
Definition failing_session : session :=
  {| text_input := lit "http://example.org/"; selectbox := lit "饼图"; button := true;
     fetch_text_from_url := fun _ => Raise RequestException;
     stopwords_txt := Ok []; jieba_cut := space_cut |}.

(** A server that answers every request with the given status. *)
Definition demo_get (status : Z) (url : list Z) : result response :=
  Ok {| status_code := status; text := lit "<body> a <p>b c</p></body>" |}.

Definition demo_body (page : list Z) : option (list (list Z)) :=
  Some [lit " a "; lit "b c"].

(** * Sanity checks on concrete inputs *)

Example lit_cjk : lit "垂直条形图" = [22402; 30452; 26465; 24418; 22270]%Z.
Proof. reflexivity. Qed.

Example lit_mixed : lit "20个词：a" = [50; 48; 20010; 35789; 65306; 97]%Z.
Proof. reflexivity. Qed.

Example strip_tags_example :
  re_sub pat_tag [] (lit "a<b" ++ [NEWLINE] ++ lit ">c<d>e<f<g>h>i<")
  = lit "a<b" ++ [NEWLINE] ++ lit ">ceh>i<".
Proof. reflexivity. Qed.

Example preprocess_example :
  preprocess_text (lit "<p>词频 2024,  Hello</p>" ++ [NEWLINE] ++ lit " world! ")
  = lit "词频 Hello world".
Proof. reflexivity. Qed.

(** * The normalizer *)

Section Normalizer.

Lemma re_sub_tag_id (s : str) :
  Forall (fun c => c <> LT) s -> re_sub pat_tag [] s = s.
Proof.
  unfold re_sub. induction 1 as [|c s Hc _ IH]; simpl; [done|].
  destruct (Z.eqb_spec c LT); [done|]. by rewrite IH.
Qed.

Lemma re_sub_other_map (s : str) :
  re_sub pat_other [SPACE] s
  = List.map (fun c => if in_alphabet c then c else SPACE) s.
Proof.
  unfold re_sub. induction s as [|c s IH]; simpl; [done|].
  destruct (in_alphabet c); simpl; by rewrite IH.
Qed.

Lemma re_sub_spaces_squeeze (s : str) :
  re_sub_from pat_spaces [SPACE] (space_run s) s = squeeze true s
  /\ re_sub_from pat_spaces [SPACE] 0 s = squeeze false s.
Proof.
  induction s as [|c s [IH1 IH0]]; simpl; [done|].
  unfold pat_spaces; simpl.
  destruct (isspace c); simpl; split;
    first [exact IH1 | f_equal; first [exact IH1 | exact IH0]].
Qed.

Lemma re_sub_spaces (s : str) : re_sub pat_spaces [SPACE] s = squeeze false s.
Proof. apply re_sub_spaces_squeeze. Qed.

End Normalizer.

Section Spacing.

Lemma starts_clean_nil : starts_clean [].
Proof. by intros c. Qed.

Lemma starts_clean_cons (c : Z) (s : str) :
  starts_clean (c :: s) <-> isspace c = false.
Proof.
  unfold starts_clean; simpl. split; [auto|]. by intros ? ? [= <-].
Qed.

Lemma starts_clean_app_l (a b : str) : starts_clean (a ++ b) -> starts_clean a.
Proof. destruct a; [intros _; apply starts_clean_nil | done]. Qed.

Lemma single_spaced_app_l (a b : str) : single_spaced (a ++ b) -> single_spaced a.
Proof.
  induction a as [|c a IH]; simpl; [done|].
  intros [H1 H2]. split; [|auto].
  intros Hc. eapply starts_clean_app_l, H1, Hc.
Qed.

Lemma single_spaced_app_r (a b : str) : single_spaced (a ++ b) -> single_spaced b.
Proof. induction a as [|c a IH]; simpl; [done|]. intros [_ H]; auto. Qed.

(** [single_spaced], read by positions. *)
Lemma single_spaced_lookup (s : str) (i : nat) (c d : Z) :
  single_spaced s -> s !! i = Some c -> s !! S i = Some d ->
  ~ (isspace c = true /\ isspace d = true).
Proof.
  revert i. induction s as [|x s IH]; intros i Hs Hc Hd; [done|].
  destruct Hs as [Hx Hs]. destruct i as [|i]; simpl in *.
  - injection Hc as ->. intros [Hc' Hd'].
    specialize (Hx Hc' d). rewrite head_lookup in Hx. rewrite (Hx Hd) in Hd'. done.
  - eauto.
Qed.

Lemma squeeze_Forall (P : Z -> Prop) (b : bool) (s : str) :
  P SPACE -> Forall P s -> Forall P (squeeze b s).
Proof.
  intros HP Hs. revert b. induction Hs as [|c s Hc _ IH]; intros b; simpl; [done|].
  destruct (isspace c), b; auto.
Qed.

Lemma squeeze_spaced (s : str) (b : bool) :
  single_spaced (squeeze b s) /\ (b = true -> starts_clean (squeeze b s)).
Proof.
  revert b. induction s as [|c s IH]; intros b; simpl.
  - split; [done|]. intros _; apply starts_clean_nil.
  - destruct (isspace c) eqn:Hc.
    + destruct (IH true) as [H1 H2]. destruct b; [auto|].
      split; [|done]. simpl. auto.
    + destruct (IH false) as [H1 _]. split.
      * simpl. split; [congruence | done].
      * intros _. by apply starts_clean_cons.
Qed.

Lemma squeeze_id (s : str) (b : bool) :
  Forall (fun c => isspace c = true -> c = SPACE) s ->
  single_spaced s -> (b = true -> starts_clean s) ->
  squeeze b s = s.
Proof.
  intros Hs. revert b. induction Hs as [|c s Hc _ IH]; intros b; simpl; [done|].
  intros [H1 H2] Hb. destruct (isspace c) eqn:Ec.
  - destruct b.
    + specialize (Hb eq_refl). apply starts_clean_cons in Hb. congruence.
    + rewrite (Hc eq_refl). f_equal. apply IH; auto.
  - f_equal. apply IH; [done|]. done.
Qed.

End Spacing.

Ltac bool_to_prop :=
  repeat match goal with
  | H : _ |- _ =>
    first [ rewrite orb_true_iff in H | rewrite andb_true_iff in H
          | rewrite orb_false_iff in H | rewrite andb_false_iff in H
          | rewrite Z.leb_le in H | rewrite Z.eqb_eq in H
          | rewrite Z.leb_gt in H | rewrite Z.eqb_neq in H ]
  end.

Section CharClasses.

Lemma in_alphabet_letter (c : Z) : in_alphabet c = true <-> is_letter c.
Proof.
  unfold in_alphabet, is_cjk, is_ascii_letter, is_letter.
  rewrite !orb_true_iff, !andb_true_iff, !Z.leb_le. lia.
Qed.

Lemma letter_not_space (c : Z) : in_alphabet c = true -> isspace c = false.
Proof.
  intros H. destruct (isspace c) eqn:E; [|done].
  unfold in_alphabet, is_cjk, is_ascii_letter in H. unfold isspace in E.
  bool_to_prop. lia.
Qed.

Lemma isspace_SPACE : isspace SPACE = true.
Proof. reflexivity. Qed.

End CharClasses.

Section Strip.

Lemma lstrip_suffix (s : str) : exists p, s = p ++ lstrip s.
Proof.
  induction s as [|c s [p IH]]; simpl; [by exists []|].
  destruct (isspace c).
  - exists (c :: p). simpl. by f_equal.
  - by exists [].
Qed.

Lemma lstrip_starts_clean (s : str) : starts_clean (lstrip s).
Proof.
  induction s as [|c s IH]; simpl; [apply starts_clean_nil|].
  destruct (isspace c) eqn:E; [done|]. by apply starts_clean_cons.
Qed.

Lemma lstrip_id (s : str) : starts_clean s -> lstrip s = s.
Proof.
  destruct s as [|c s]; simpl; [done|].
  intros H%starts_clean_cons. by rewrite H.
Qed.

Lemma rstrip_prefix (s : str) : exists q, s = rstrip s ++ q.
Proof.
  unfold rstrip. destruct (lstrip_suffix (reverse s)) as [p Hp].
  exists (reverse p). rewrite <- reverse_app, <- Hp. by rewrite reverse_involutive.
Qed.

Lemma rstrip_ends_clean (s : str) : ends_clean (rstrip s).
Proof.
  unfold rstrip, ends_clean. intros c. rewrite last_reverse.
  apply lstrip_starts_clean.
Qed.

Lemma rstrip_id (s : str) : ends_clean s -> rstrip s = s.
Proof.
  intros H. unfold rstrip. rewrite lstrip_id; [apply reverse_involutive|].
  intros c. rewrite head_reverse. apply H.
Qed.

Lemma strip_infix (s : str) : exists p q, s = p ++ strip s ++ q.
Proof.
  unfold strip. destruct (lstrip_suffix s) as [p Hp].
  destruct (rstrip_prefix (lstrip s)) as [q Hq].
  exists p, q. by rewrite <- Hq.
Qed.

Lemma strip_starts_clean (s : str) : starts_clean (strip s).
Proof.
  unfold strip. destruct (rstrip_prefix (lstrip s)) as [q Hq].
  apply (starts_clean_app_l _ q). rewrite <- Hq. apply lstrip_starts_clean.
Qed.

Lemma strip_ends_clean (s : str) : ends_clean (strip s).
Proof. apply rstrip_ends_clean. Qed.

Lemma strip_Forall (P : Z -> Prop) (s : str) : Forall P s -> Forall P (strip s).
Proof.
  destruct (strip_infix s) as (p & q & H). rewrite H at 1.
  rewrite !Forall_app. tauto.
Qed.

Lemma strip_single_spaced (s : str) : single_spaced s -> single_spaced (strip s).
Proof.
  destruct (strip_infix s) as (p & q & H). rewrite H at 1.
  intros H1%single_spaced_app_r. by apply single_spaced_app_l in H1.
Qed.

Lemma strip_id (s : str) : starts_clean s -> ends_clean s -> strip s = s.
Proof. intros H1 H2. unfold strip. rewrite lstrip_id by done. by apply rstrip_id. Qed.

End Strip.

Section PreprocessText.

Lemma preprocess_text_chars (x : str) :
  Forall (fun c => in_alphabet c = true \/ c = SPACE) (preprocess_text x).
Proof.
  unfold preprocess_text. apply strip_Forall. rewrite re_sub_spaces.
  apply squeeze_Forall; [by right|]. rewrite re_sub_other_map.
  apply List.Forall_forall. intros c (c0 & <- & _)%in_map_iff.
  destruct (in_alphabet c0) eqn:E; auto.
Qed.

Lemma preprocess_text_single_spaced (x : str) : single_spaced (preprocess_text x).
Proof.
  unfold preprocess_text. apply strip_single_spaced. rewrite re_sub_spaces.
  apply squeeze_spaced.
Qed.

(** C2. For every input, the output of [preprocess_text] holds only CJK
    ideographs (U+4E00 to U+9FFF), ASCII letters and the space character,
    no two consecutive characters of it are whitespace, its first and its
    last character are not whitespace; the empty input gives the empty
    output. *)
Theorem preprocess_text_normalized (x : str) :
  Forall (fun c => is_letter c \/ c = SPACE) (preprocess_text x)
  /\ (forall (i : nat) (c d : Z),
        preprocess_text x !! i = Some c -> preprocess_text x !! S i = Some d ->
        ~ (isspace c = true /\ isspace d = true))
  /\ starts_clean (preprocess_text x)
  /\ ends_clean (preprocess_text x)
  /\ preprocess_text [] = [].
Proof.
  split; [|split; [|split; [|split]]].
  - eapply Forall_impl; [apply preprocess_text_chars|].
    intros c [H|H]; [left; by apply in_alphabet_letter | by right].
  - intros i c d. apply single_spaced_lookup, preprocess_text_single_spaced.
  - apply strip_starts_clean.
  - apply strip_ends_clean.
  - reflexivity.
Qed.

(** C3. [preprocess_text] is idempotent. *)
Theorem preprocess_text_idempotent (x : str) :
  preprocess_text (preprocess_text x) = preprocess_text x.
Proof.
  pose proof (preprocess_text_chars x) as Hc.
  pose proof (preprocess_text_single_spaced x) as Hs.
  assert (starts_clean (preprocess_text x)) as Hh by apply strip_starts_clean.
  assert (ends_clean (preprocess_text x)) as Hl by apply strip_ends_clean.
  generalize dependent (preprocess_text x). intros y Hc Hs Hh Hl.
  unfold preprocess_text.
  rewrite re_sub_tag_id.
  2:{ eapply Forall_impl; [exact Hc|].
      intros c [H| ->] E; [subst c; vm_compute in H | vm_compute in E]; done. }
  rewrite re_sub_other_map.
  replace (List.map _ y) with y.
  2:{ clear Hs Hh Hl. induction Hc as [|c y [H| ->] _ IH]; simpl; [done| |];
      rewrite <- IH; [by rewrite H | done]. }
  rewrite re_sub_spaces, squeeze_id; [by apply strip_id | | done | done].
  eapply Forall_impl; [exact Hc|]. intros c [H| ->]; [|done].
  rewrite (letter_not_space c H). done.
Qed.

End PreprocessText.

(** * The stopword filter *)

Section StopwordFilter.

Lemma keep_word_spec (stopwords : gset (list Z)) (w : str) :
  keep_word stopwords w = true <-> strip w <> [] /\ (w ∉ stopwords).
Proof.
  unfold keep_word. rewrite andb_true_iff, negb_true_iff.
  rewrite bool_decide_eq_false, bool_decide_eq_true. done.
Qed.

Lemma filter_sublist {A : Type} (f : A -> bool) (l : list A) :
  sublist (List.filter f l) l.
Proof.
  induction l as [|x l IH]; simpl; [constructor|].
  destruct (f x); by constructor.
Qed.

(** C4. The filtering step of [segment_and_count] returns a subsequence of
    the tokens (so it is no longer than them and keeps their order), with no
    token of the stopword set and no token that is empty once stripped; it
    keeps every other token. *)
Theorem filter_words_sound (tokens : list str) (stopwords : gset (list Z)) :
  sublist (filter_words tokens stopwords) tokens
  /\ length (filter_words tokens stopwords) <= length tokens
  /\ Forall (fun w => (w ∉ stopwords) /\ strip w <> []) (filter_words tokens stopwords)
  /\ (forall w, In w (filter_words tokens stopwords)
                <-> In w tokens /\ (w ∉ stopwords) /\ strip w <> []).
Proof.
  assert (sublist (filter_words tokens stopwords) tokens) as Hsub
    by apply filter_sublist.
  split; [done|]. split; [by apply sublist_length|].
  assert (forall w, In w (filter_words tokens stopwords)
                    <-> In w tokens /\ (w ∉ stopwords) /\ strip w <> []) as Hin.
  { intros w. unfold filter_words. rewrite filter_In, keep_word_spec. tauto. }
  split; [|done].
  apply List.Forall_forall. intros w Hw%Hin. tauto.
Qed.

End StopwordFilter.

(** * The frequency table *)

Section CounterFacts.

Implicit Types (m : list (list Z * Z)) (k w : list Z) (ws : list (list Z)).

Lemma get_setitem m k v k' d :
  get (setitem m k v) k' d = if decide (k = k') then v else get m k' d.
Proof.
  induction m as [|[k0 v0] m IH]; simpl.
  - by destruct (decide (k = k')).
  - destruct (decide (k0 = k)) as [->|Hne]; simpl.
    + by destruct (decide (k = k')).
    + rewrite IH. destruct (decide (k0 = k')), (decide (k = k')); congruence.
Qed.

Lemma total_setitem m k v : total (setitem m k v) = (total m - get m k 0 + v)%Z.
Proof.
  unfold total, values.
  induction m as [|[k0 v0] m IH]; simpl; [lia|].
  destruct (decide (k0 = k)); simpl; lia.
Qed.

Lemma keys_setitem m k v :
  keys (setitem m k v) = if decide (k ∈ keys m) then keys m else keys m ++ [k].
Proof.
  unfold keys. induction m as [|[k0 v0] m IH]; simpl.
  - done.
  - destruct (decide (k0 = k)) as [->|Hne]; simpl.
    + destruct (decide (k ∈ k :: map fst m)) as [|H]; [done|].
      destruct H. apply elem_of_cons; auto.
    + rewrite IH.
      destruct (decide (k ∈ map fst m)) as [H1|H1],
               (decide (k ∈ k0 :: map fst m)) as [H2|H2]; simpl; try done.
      * destruct H2. by apply elem_of_cons; right.
      * apply elem_of_cons in H2 as [?|?]; congruence.
Qed.

Lemma count_elements_snoc m ws w :
  count_elements m (ws ++ [w])
  = setitem (count_elements m ws) w (get (count_elements m ws) w 0 + 1)%Z.
Proof. unfold count_elements. by rewrite fold_left_app. Qed.

Lemma list_count_snoc w ws v :
  list_count w (ws ++ [v]) = (list_count w ws + if decide (v = w) then 1 else 0)%Z.
Proof. induction ws as [|x ws IH]; simpl; [lia|]. rewrite IH. lia. Qed.

Lemma list_count_nonneg w ws : (0 <= list_count w ws)%Z.
Proof. induction ws as [|x ws IH]; simpl; [lia|]. case_decide; lia. Qed.

Lemma list_count_pos w ws : w ∈ ws <-> (0 < list_count w ws)%Z.
Proof.
  induction ws as [|x ws IH]; simpl.
  - rewrite elem_of_nil. lia.
  - pose proof (list_count_nonneg w ws). rewrite elem_of_cons, IH.
    destruct (decide (x = w)); split; intros; try lia; auto.
    destruct H0; [congruence | lia].
Qed.

Lemma Counter_of_get ws w : get (Counter_of ws) w 0 = list_count w ws.
Proof.
  unfold Counter_of. induction ws as [|v ws IH] using rev_ind; [done|].
  rewrite count_elements_snoc, get_setitem, list_count_snoc, IH.
  destruct (decide (v = w)) as [->|]; [|lia]. by rewrite IH.
Qed.

Lemma Counter_of_total ws : total (Counter_of ws) = Z.of_nat (length ws).
Proof.
  unfold Counter_of. induction ws as [|v ws IH] using rev_ind; [done|].
  rewrite count_elements_snoc, total_setitem, IH, length_app. simpl. lia.
Qed.

Lemma Counter_of_keys ws w : w ∈ keys (Counter_of ws) <-> w ∈ ws.
Proof.
  unfold Counter_of. induction ws as [|v ws IH] using rev_ind; [done|].
  rewrite count_elements_snoc, keys_setitem, elem_of_app, list_elem_of_singleton.
  case_decide as Hv.
  - rewrite IH. split; [tauto|]. intros [H| ->]; [done|]. by apply IH.
  - rewrite elem_of_app, list_elem_of_singleton, IH. done.
Qed.

Lemma Counter_of_NoDup ws : NoDup (keys (Counter_of ws)).
Proof.
  unfold Counter_of. induction ws as [|v ws IH] using rev_ind; [constructor|].
  rewrite count_elements_snoc, keys_setitem.
  case_decide as Hv; [done|].
  apply NoDup_app. split; [done|]. split; [|apply NoDup_singleton].
  by intros x Hx ->%list_elem_of_singleton.
Qed.

Lemma elem_of_keys m k v : (k, v) ∈ m -> k ∈ keys m.
Proof. intros H. apply list_elem_of_In, in_map_iff. exists (k, v). by rewrite <- list_elem_of_In. Qed.

Lemma get_unique m k v d : NoDup (keys m) -> (k, v) ∈ m -> get m k d = v.
Proof.
  induction m as [|[k0 v0] m IH]; simpl.
  - by intros _ ?%elem_of_nil.
  - intros [Hk Hm]%NoDup_cons [[= -> ->]|Hin]%elem_of_cons.
    + by destruct (decide (k0 = k0)).
    + destruct (decide (k0 = k)) as [->|]; [|auto].
      destruct Hk. by eapply elem_of_keys.
Qed.

Lemma get_elem_of m k : k ∈ keys m -> (k, get m k 0) ∈ m.
Proof.
  induction m as [|[k0 v0] m IH]; simpl.
  - by intros ?%elem_of_nil.
  - destruct (decide (k0 = k)) as [->|]; [intros _; apply elem_of_cons; auto|].
    intros [?|?]%elem_of_cons; [done|]. apply elem_of_cons; auto.
Qed.

Lemma Counter_of_items ws w (c : Z) :
  (w, c) ∈ items (Counter_of ws) <-> w ∈ ws /\ c = list_count w ws.
Proof.
  unfold items. split.
  - intros H. split.
    + eapply Counter_of_keys, elem_of_keys, H.
    + rewrite <- Counter_of_get. symmetry.
      apply get_unique; [apply Counter_of_NoDup | done].
  - intros [Hw ->]. rewrite <- Counter_of_get.
    by apply get_elem_of, Counter_of_keys.
Qed.

(** C5. The table built by [Counter] is an exact multiset count of the
    filtered tokens: its counts add up to the number of tokens, looking a
    token up gives its number of occurrences, the entries are exactly the
    tokens that occur, each once, with that number as count. *)
Theorem Counter_of_multiset (words : list (list Z)) :
  total (Counter_of words) = Z.of_nat (length words)
  /\ (forall w, get (Counter_of words) w 0 = list_count w words)
  /\ (forall w c, (w, c) ∈ items (Counter_of words)
                  <-> w ∈ words /\ c = list_count w words)
  /\ NoDup (keys (Counter_of words)).
Proof.
  split; [apply Counter_of_total|]. split; [apply Counter_of_get|].
  split; [apply Counter_of_items | apply Counter_of_NoDup].
Qed.

End CounterFacts.

(** * First occurrences and the order of the table *)

Section KeyOrder.

Implicit Types (w k : list Z) (ws : list (list Z)).

Lemma first_occ_exists ws w : w ∈ ws -> exists p, first_occ ws w p.
Proof.
  induction ws as [|v ws IH]; [by intros ?%elem_of_nil|].
  destruct (decide (v = w)) as [->|Hne].
  - intros _. exists 0. split; [done|]. lia.
  - intros [?|Hin]%elem_of_cons; [congruence|].
    destruct (IH Hin) as (p & Hp & Hmin). exists (S p). split; [done|].
    intros [|q] Hq; simpl; [congruence|]. apply Hmin. lia.
Qed.

Lemma first_occ_snoc ws w v p : first_occ ws w p -> first_occ (ws ++ [v]) w p.
Proof.
  intros [Hp Hmin]. pose proof (lookup_lt_Some _ _ _ Hp) as Hlt. split.
  - by rewrite lookup_app_l.
  - intros q Hq. rewrite lookup_app_l by lia. auto.
Qed.

Lemma first_occ_new ws w : w ∉ ws -> first_occ (ws ++ [w]) w (length ws).
Proof.
  intros Hw. split.
  - by rewrite list_lookup_middle.
  - intros q Hq. rewrite lookup_app_l by lia.
    intros H. apply Hw. eapply list_elem_of_lookup_2, H.
Qed.

Lemma occurs_before_snoc ws v w1 w2 :
  occurs_before ws w1 w2 -> occurs_before (ws ++ [v]) w1 w2.
Proof.
  intros (p1 & p2 & H1 & H2 & Hlt). exists p1, p2. auto using first_occ_snoc.
Qed.

Lemma occurs_before_new ws w1 w :
  w1 ∈ ws -> w ∉ ws -> occurs_before (ws ++ [w]) w1 w.
Proof.
  intros (p1 & H1)%first_occ_exists Hw. exists p1, (length ws).
  split; [by apply first_occ_snoc|]. split; [by apply first_occ_new|].
  destruct H1 as [H1 _]. by apply lookup_lt_Some in H1.
Qed.

Lemma StronglySorted_mono {A : Type} (R R' : A -> A -> Prop) (l : list A) :
  (forall a b, R a b -> R' a b) -> StronglySorted R l -> StronglySorted R' l.
Proof.
  intros HR. induction 1 as [|a l _ IH Ha]; constructor; [done|].
  eapply Forall_impl; [exact Ha|]. auto.
Qed.

Lemma StronglySorted_map {A B : Type} (R : B -> B -> Prop) (f : A -> B) (l : list A) :
  StronglySorted R (List.map f l) -> StronglySorted (fun a b => R (f a) (f b)) l.
Proof.
  induction l as [|a l IH]; simpl; [constructor|].
  intros [Ha Hl]%StronglySorted_cons. constructor; [auto|].
  apply List.Forall_forall. intros b Hb.
  rewrite List.Forall_forall in Ha. apply Ha, in_map_iff. eauto.
Qed.

Lemma StronglySorted_lookup {A : Type} (R : A -> A -> Prop) (l : list A) i j a b :
  StronglySorted R l -> i < j -> l !! i = Some a -> l !! j = Some b -> R a b.
Proof.
  intros Hl. revert i j. induction Hl as [|x l _ IH Hx]; intros i j Hij Hi Hj; [done|].
  destruct j as [|j]; [lia|]. destruct i as [|i]; simpl in *.
  - injection Hi as ->. rewrite Forall_forall in Hx.
    eapply Hx, list_elem_of_lookup_2, Hj.
  - eapply (IH i j); [lia|done..].
Qed.

(** The keys of the table are in the order of their first occurrence. *)
Lemma Counter_of_key_order ws :
  StronglySorted (occurs_before ws) (keys (Counter_of ws)).
Proof.
  induction ws as [|v ws IH] using rev_ind; [constructor|].
  pose proof (Counter_of_keys ws) as Hk. unfold Counter_of in *.
  rewrite count_elements_snoc, keys_setitem.
  assert (StronglySorted (occurs_before (ws ++ [v])) (keys (count_elements [] ws)))
    as IH' by (eapply StronglySorted_mono, IH; auto using occurs_before_snoc).
  destruct (decide (v ∈ keys (count_elements [] ws))) as [Hv|Hv]; [done|].
  apply StronglySorted_app. split; [|split; [done|repeat constructor]].
  intros k1 k2 Hk1%Hk ->%list_elem_of_singleton.
  apply occurs_before_new; [done|]. by rewrite <- Hk.
Qed.

End KeyOrder.

(** * The top-N query *)

Section MostCommon.

Implicit Types (l : list (list Z * Z)) (x y : list Z * Z).

Lemma insert_desc_perm x l : insert_desc x l ≡ₚ x :: l.
Proof.
  induction l as [|y l IH]; simpl; [done|].
  destruct (snd y <=? snd x)%Z; [done|]. rewrite IH. apply Permutation_swap.
Qed.

Lemma sorted_desc_perm l : sorted_desc l ≡ₚ l.
Proof.
  induction l as [|x l IH]; simpl; [done|].
  rewrite insert_desc_perm. by constructor.
Qed.

Lemma insert_desc_sorted T x l :
  Forall (T x) l -> StronglySorted (ranks_before T) l ->
  StronglySorted (ranks_before T) (insert_desc x l).
Proof.
  intros Hx Hl. induction Hl as [|y l Hl IH Hy]; simpl; [repeat constructor|].
  apply Forall_cons in Hx as [Hxy Hx].
  destruct (Z.leb_spec (snd y) (snd x)) as [Hle|Hgt].
  - constructor; [by constructor|]. constructor.
    + unfold ranks_before. destruct (decide (snd y = snd x)); [right; done | left; lia].
    + rewrite Forall_forall in Hx, Hy. apply Forall_forall. intros z Hz.
      specialize (Hx z Hz). specialize (Hy z Hz).
      unfold ranks_before in *. destruct (decide (snd z = snd x)); [right; done | left; lia].
  - constructor; [auto|]. rewrite insert_desc_perm. constructor; [|done].
    left. lia.
Qed.

(** The sort is stable: it orders by count, and items of equal count stay
    in their original order. *)
Lemma sorted_desc_stable T l :
  StronglySorted T l -> StronglySorted (ranks_before T) (sorted_desc l).
Proof.
  induction 1 as [|x l _ IH Hx]; simpl; [constructor|].
  apply insert_desc_sorted; [|done]. by rewrite sorted_desc_perm.
Qed.

Lemma StronglySorted_take {A : Type} (R : A -> A -> Prop) (n : nat) (s : list A) :
  StronglySorted R s -> StronglySorted R (take n s).
Proof.
  intros H. rewrite <- (take_drop n s) in H. by apply StronglySorted_app_1_l in H.
Qed.

Lemma most_common_sorted T (m : list (list Z * Z)) (n : Z) :
  StronglySorted T (items m) -> StronglySorted (ranks_before T) (most_common m n).
Proof.
  intros H. unfold most_common. destruct (n <=? 0)%Z; [constructor|].
  by apply StronglySorted_take, sorted_desc_stable.
Qed.

Lemma StronglySorted_total {A : Type} (s : list A) : StronglySorted (fun _ _ => True) s.
Proof. induction s; constructor; [done|]. by apply Forall_forall. Qed.

Lemma most_common_length (m : list (list Z * Z)) (n : Z) :
  length (most_common m n) = Nat.min (Z.to_nat n) (length m).
Proof.
  unfold most_common, items. destruct (Z.leb_spec n 0) as [H|H].
  - simpl. lia.
  - rewrite length_take. by rewrite (Permutation_length (sorted_desc_perm m)).
Qed.

Lemma most_common_elem_of (m : list (list Z * Z)) (n : Z) x :
  x ∈ most_common m n -> x ∈ items m.
Proof.
  unfold most_common, items. destruct (n <=? 0)%Z; [by intros ?%elem_of_nil|].
  intros H%subseteq_take. by rewrite sorted_desc_perm in H.
Qed.

End MostCommon.

Section TopN.

(** C1. [most_common] returns at most [n] entries of the table (all of them
    when the table has no more than [n]), in descending order of count;
    when the table was built from a token sequence, entries with equal
    counts come in the order in which their tokens first occur in that
    sequence; for [n <= 0], and so for [most_common(0)], the result is
    empty. *)
Theorem most_common_ranked (table : list (list Z * Z)) (n : Z) :
  length (most_common table n) <= Z.to_nat n
  /\ length (most_common table n) = Nat.min (Z.to_nat n) (length (items table))
  /\ (forall e, e ∈ most_common table n -> e ∈ items table)
  /\ (forall (i j : nat) (w1 w2 : list Z) (c1 c2 : Z),
        i < j ->
        most_common table n !! i = Some (w1, c1) ->
        most_common table n !! j = Some (w2, c2) ->
        (c2 <= c1)%Z)
  /\ (forall (words : list (list Z)) (i j : nat) (w1 w2 : list Z) (c : Z),
        table = Counter_of words ->
        i < j ->
        most_common table n !! i = Some (w1, c) ->
        most_common table n !! j = Some (w2, c) ->
        occurs_before words w1 w2)
  /\ ((n <= 0)%Z -> most_common table n = [])
  /\ most_common table 0 = [].
Proof.
  pose proof (most_common_length table n) as Hlen. unfold items in *.
  split; [lia|]. split; [done|]. split; [apply most_common_elem_of|].
  split; [|split; [|split; [|done]]].
  3:{ intros Hn. unfold most_common. by rewrite (proj2 (Z.leb_le n 0) Hn). }
  - intros i j w1 w2 c1 c2 Hij Hi Hj.
    pose proof (most_common_sorted (fun _ _ => True) table n
                  (StronglySorted_total _)) as Hs.
    destruct (StronglySorted_lookup _ _ _ _ _ _ Hs Hij Hi Hj) as [H|[H _]];
      simpl in H; lia.
  - intros words i j w1 w2 c -> Hij Hi Hj.
    pose proof (most_common_sorted
                  (fun a b => occurs_before words (fst a) (fst b))
                  (Counter_of words) n
                  (StronglySorted_map _ _ _ (Counter_of_key_order words))) as Hs.
    destruct (StronglySorted_lookup _ _ _ _ _ _ Hs Hij Hi Hj) as [H|[_ H]];
      simpl in H; [lia | done].
Qed.

End TopN.

(** * Chart data *)

Section CreateChart.

Implicit Types (word_counts : list (list Z * Z)) (top_n : Z).

(** The guard [zip( *top_words) if top_words else ([], [])] always yields
    the two projections of [top_words]. *)
Lemma create_chart_eq chart_type word_counts top_n :
  create_chart chart_type word_counts top_n =
  let words := List.map fst (most_common word_counts top_n) in
  let counts := List.map snd (most_common word_counts top_n) in
  if decide (chart_type = lit "垂直条形图") then
    Ok (Some (Bar words (lit "词频") counts false (lit "垂直条形图")))
  else if decide (chart_type = lit "水平条形图") then
    Ok (Some (Bar words (lit "词频") counts true (lit "水平条形图")))
  else if decide (chart_type = lit "饼图") then
    data_pair ← pie_add (zip words counts);
    Ok (Some (Pie EMPTY data_pair (lit "饼图")))
  else if decide (chart_type = lit "折线图") then
    Ok (Some (Line words (lit "词频") counts false (lit "折线图")))
  else if decide (chart_type = lit "散点图") then
    Ok (Some (Scatter words (lit "词频") counts (lit "散点图")))
  else if decide (chart_type = lit "雷达图") then
    schema ← mapM (fun word => max_ ← py_max counts; mret (word, max_)) words;
    Ok (Some (Radar schema (lit "词频") [counts] (lit "雷达图")))
  else if decide (chart_type = lit "面积图") then
    Ok (Some (Line words (lit "词频") counts true (lit "面积图")))
  else
    Ok None.
Proof. unfold create_chart. by destruct (most_common word_counts top_n). Qed.

Lemma top_words_parallel (top : list (list Z * Z)) (i : nat) (w : list Z) (v : Z) :
  top !! i = Some (w, v)
  <-> List.map fst top !! i = Some w /\ List.map snd top !! i = Some v.
Proof.
  revert i. induction top as [|[w0 v0] top IH]; intros i; simpl.
  - rewrite !lookup_nil. split; [done | by intros [? _]].
  - destruct i as [|i]; simpl; [|apply IH].
    split; [by intros [= -> ->] | by intros [[= ->] [= ->]]].
Qed.

Lemma lookup_map {A B : Type} (f : A -> B) (l : list A) (i : nat) :
  List.map f l !! i = f <$> l !! i.
Proof. revert i. induction l as [|x l IH]; intros [|i]; simpl; auto. Qed.

Lemma fold_left_max_spec (l : list Z) (x : Z) :
  is_max (fold_left Z.max l x) (x :: l).
Proof.
  revert x. induction l as [|y l IH]; intros x; simpl.
  - split; [apply elem_of_cons; auto|]. repeat constructor. lia.
  - destruct (IH (Z.max x y)) as [Hin Hall].
    apply Forall_cons in Hall as [H1 H2]. split.
    + apply elem_of_cons in Hin as [Hin|Hin].
      * rewrite Hin. destruct (Z.max_spec x y) as [[_ ->]|[_ ->]];
          rewrite !elem_of_cons; auto.
      * rewrite !elem_of_cons; auto.
    + repeat constructor; [lia..|done].
Qed.

Lemma py_max_spec (l : list Z) (m : Z) : py_max l = Ok m -> is_max m l.
Proof. destruct l as [|x l]; [done|]. intros [= <-]. apply fold_left_max_spec. Qed.

Lemma py_max_nonempty (l : list Z) : l <> [] -> exists m, py_max l = Ok m.
Proof. destruct l; [done|]. eauto. Qed.

Lemma mapM_Ok {A B : Type} (f : A -> B) (l : list A) :
  mapM (M := result) (fun x => Ok (f x)) l = Ok (List.map f l).
Proof. induction l as [|x l IH]; simpl; [done|]. by rewrite IH. Qed.

End CreateChart.

Ltac decide_lit :=
  repeat first
    [ rewrite decide_True by reflexivity
    | rewrite decide_False by (vm_compute; discriminate) ].

Section ChartKinds.

Implicit Types (word_counts : list (list Z * Z)) (top_n : Z).

(** C6. For the vertical bar, horizontal bar, line, scatter and area kinds
    [create_chart] returns a chart whose labels are the tokens and whose
    values are the counts of the same top entries, position by position
    (with unique keys, value [i] is the count of label [i] in the table);
    only the horizontal bar chart has its axes reversed, its data are those
    of the vertical one. *)
Theorem create_chart_axis_series (chart_type : list Z) word_counts top_n :
  chart_type ∈ axis_kinds ->
  let top_words := most_common word_counts top_n in
  exists c,
    create_chart chart_type word_counts top_n = Ok (Some c)
    /\ xaxis_data c = Some (List.map fst top_words)
    /\ yaxis_data c = Some (List.map snd top_words)
    /\ length (List.map fst top_words) = length (List.map snd top_words)
    /\ (forall (i : nat) (w : list Z) (v : Z),
          top_words !! i = Some (w, v)
          <-> List.map fst top_words !! i = Some w
              /\ List.map snd top_words !! i = Some v)
    /\ (forall (i : nat) (w : list Z) (v : Z),
          NoDup (keys word_counts) -> top_words !! i = Some (w, v) ->
          get word_counts w 0 = v)
    /\ (axes_reversed c = true <-> chart_type = lit "水平条形图").
Proof.
  intros Hkind top_words.
  assert (length (List.map fst top_words) = length (List.map snd top_words))
    as Hlen by (by rewrite !length_map).
  assert (forall (i : nat) (w : list Z) (v : Z),
            NoDup (keys word_counts) -> top_words !! i = Some (w, v) ->
            get word_counts w 0 = v) as Hget.
  { intros i w v Hnd Hi. apply get_unique; [done|].
    eapply most_common_elem_of, list_elem_of_lookup_2, Hi. }
  pose proof (top_words_parallel top_words) as Hpar.
  unfold axis_kinds in Hkind. rewrite !elem_of_cons, elem_of_nil in Hkind.
  destruct Hkind as [->|[->|[->|[->|[->|[]]]]]];
    (eexists; split_and!;
     [ rewrite create_chart_eq; cbv zeta; decide_lit; reflexivity
     | reflexivity | reflexivity | exact Hlen | exact Hpar | exact Hget
     | simpl; split; try done; vm_compute; discriminate ]).
Qed.

End ChartKinds.

Section RadarAndEmpty.

Implicit Types (word_counts : list (list Z * Z)) (top_n : Z).

Lemma radar_schema (words : list (list Z)) (counts : list Z) (m : Z) :
  py_max counts = Ok m ->
  mapM (M := result) (fun word => max_ ← py_max counts; mret (word, max_)) words
  = Ok (List.map (fun word => (word, m)) words).
Proof. intros ->. apply (mapM_Ok (fun word => (word, m))). Qed.

(** C7. With at least one selected entry, the radar chart has one indicator
    per entry, in ranked order, each with the greatest selected count as
    its maximum, and exactly one data vector, the counts in the same order. *)
Theorem create_chart_radar word_counts top_n :
  most_common word_counts top_n <> [] ->
  let top_words := most_common word_counts top_n in
  exists (schema : list (list Z * Z)) (data : list Z) (max_ : Z),
    create_chart (lit "雷达图") word_counts top_n
    = Ok (Some (Radar schema (lit "词频") [data] (lit "雷达图")))
    /\ List.map fst schema = List.map fst top_words
    /\ Forall (fun indicator => snd indicator = max_) schema
    /\ is_max max_ (List.map snd top_words)
    /\ data = List.map snd top_words
    /\ (forall (i : nat) (w : list Z) (v : Z),
          top_words !! i = Some (w, v) ->
          schema !! i = Some (w, max_) /\ data !! i = Some v).
Proof.
  intros Hne top_words.
  destruct (py_max_nonempty (List.map snd top_words)) as [m Hm].
  { fold top_words in Hne. by destruct top_words. }
  exists (List.map (fun word => (word, m)) (List.map fst top_words)),
         (List.map snd top_words), m.
  split_and!.
  - rewrite create_chart_eq. cbv zeta. decide_lit. fold top_words.
    by rewrite (radar_schema _ _ m Hm).
  - rewrite !List.map_map. simpl. done.
  - apply List.Forall_forall. by intros ? (? & <- & _)%in_map_iff.
  - by apply py_max_spec.
  - done.
  - intros i w v [H1 H2]%top_words_parallel. split; [|done].
    by rewrite lookup_map, H1.
Qed.

(** C10. The guard of [create_chart] for a ranking without entries does not
    make the pie chart safe: when [most_common] returns no entry, as on the
    empty table, the pie branch raises [IndexError] instead of returning a
    chart with empty series. *)
Theorem create_chart_no_entries word_counts top_n :
  most_common word_counts top_n = [] ->
  create_chart (lit "饼图") word_counts top_n = Raise IndexError
  /\ create_chart (lit "饼图") [] top_n = Raise IndexError
  /\ lit "饼图" ∈ chart_kinds.
Proof.
  intros Htop.
  assert (most_common [] top_n = []) as Hnil.
  { unfold most_common. destruct (top_n <=? 0)%Z; [done | apply take_nil]. }
  split_and!.
  - rewrite create_chart_eq. cbv zeta. decide_lit. by rewrite Htop.
  - rewrite create_chart_eq. cbv zeta. decide_lit. by rewrite Hnil.
  - unfold chart_kinds. rewrite !elem_of_cons. auto.
Qed.

End RadarAndEmpty.

(** * The run *)

Section Main.

Lemma emit_bind {B : Type} (e : event) (k : M B) :
  (emit e;; k) = (e :: fst k, snd k).
Proof. unfold emit. by destruct k. Qed.

Lemma lift_Ok_bind {A B : Type} (a : A) (f : A -> M B) : (lift (Ok a) ≫= f) = f a.
Proof. unfold lift. simpl. by destruct (f a). Qed.

Lemma lift_Raise_bind {A B : Type} (e : exn) (f : A -> M B) :
  (lift (Raise e) ≫= f) = ([], Raise e).
Proof. done. Qed.

Lemma M_bind_Ok {A B : Type} (t : list event) (a : A) (f : A -> M B) :
  ((t, Ok a) ≫= f) = (t ++ fst (f a), snd (f a)).
Proof. simpl. by destruct (f a). Qed.

Lemma for_each_emit {A : Type} (l : list A) (body : A -> M unit) (f : A -> event) :
  (forall x, body x = emit (f x)) -> for_each l body = (List.map f l, Ok tt).
Proof.
  intros Hbody. induction l as [|x l IH]; simpl; [done|].
  change (for_each (x :: l) body) with (body x;; for_each l body).
  by rewrite Hbody, emit_bind, IH.
Qed.

Lemma draw_word_cloud_eq (word_counts : list (list Z * Z)) (filename : list Z) :
  draw_word_cloud word_counts filename
  = emit (ChartRender (WordCloud (EMPTY) (items word_counts) (lit "词云"))
            (path_join TEMP_DIR filename)).
Proof. done. Qed.

Lemma create_chart_unsupported (chart_type : list Z) (word_counts : list (list Z * Z))
    (top_n : Z) :
  chart_type ∉ chart_kinds -> create_chart chart_type word_counts top_n = Ok None.
Proof.
  unfold chart_kinds. rewrite !not_elem_of_cons.
  intros (? & ? & ? & ? & ? & ? & ? & _).
  rewrite create_chart_eq. cbv zeta. by rewrite !decide_False by done.
Qed.

End Main.

(** A submitted run whose page and stopword file could be read. *)
Section SubmittedRun.

Variable w : session.
Variable text : list Z.
Variable lines : list (list Z).

Hypothesis url_given : text_input w <> [].
Hypothesis submitted : button w = true.
Hypothesis page_fetched : fetch_text_from_url w (text_input w) = Ok text.
Hypothesis stopwords_read : stopwords_txt w = Ok lines.

Let stopwords : gset (list Z) := list_to_set (List.map strip lines).
Let words : list (list Z) :=
  filter_words (jieba_cut w (preprocess_text text)) stopwords.
Let word_counts : list (list Z * Z) :=
  segment_and_count (jieba_cut w) (preprocess_text text) stopwords.

Lemma main_submitted :
  let rest : M unit :=
    if decide (selectbox w = lit "词云") then
      emit (ComponentsHtml (FileContents (lit "./temp/wordcloud.html"))
              None (Some 600%Z))
    else
      lift (create_chart (selectbox w) word_counts 20) ≫= render_pyechart in
  main w = (analysis_events word_counts ++ fst rest, snd rest).
Proof.
  intros rest. unfold main. cbv zeta.
  rewrite (decide_False (P := text_input w = EMPTY)) by done.
  rewrite submitted, page_fetched, stopwords_read.
  rewrite !emit_bind, !lift_Ok_bind, draw_word_cloud_eq, !emit_bind.
  fold stopwords. fold word_counts.
  rewrite (for_each_emit _ _
             (fun '(word, count) => StWrite (word ++ lit ": " ++ str_of_int count))).
  2:{ by intros []. }
  rewrite M_bind_Ok. fold rest. reflexivity.
Qed.

(** C8. [draw_word_cloud] hands the renderer every (word, count) pair of
    the table it is given, and [main] gives it the whole table of
    [segment_and_count]: each token that passed the filter, once, with its
    number of occurrences as weight. *)
Theorem word_cloud_full_table (table : list (list Z * Z)) (filename : list Z) :
  draw_word_cloud table filename
  = ([ChartRender (WordCloud (EMPTY) (items table) (lit "词云"))
        (path_join TEMP_DIR filename)], Ok tt)
  /\ ChartRender (WordCloud (EMPTY) (items word_counts) (lit "词云"))
       (lit "./temp/wordcloud.html") ∈ fst (main w)
  /\ (forall (word : list Z) (count : Z),
        (word, count) ∈ items word_counts
        <-> word ∈ words /\ count = list_count word words)
  /\ NoDup (keys word_counts).
Proof.
  split; [done|]. split.
  - rewrite main_submitted. simpl. unfold analysis_events.
    rewrite !elem_of_cons. auto.
  - split; [apply Counter_of_items | apply Counter_of_NoDup].
Qed.

(** C9. For a chart kind that is not supported, [create_chart] returns
    [None] and raises nothing, [render_pyechart] then emits nothing, and
    the run ends normally after it has written the word cloud of the
    frequency table and displayed the heading and the top-20 entries. *)
Theorem unsupported_chart_kind :
  selectbox w ∉ selectbox_options ->
  (forall (chart_type : list Z) (table : list (list Z * Z)) (top_n : Z),
      chart_type ∉ chart_kinds -> create_chart chart_type table top_n = Ok None)
  /\ render_pyechart None = ([], Ok tt)
  /\ main w = (analysis_events word_counts, Ok tt).
Proof.
  intros Hsel.
  split; [apply create_chart_unsupported|]. split; [done|].
  rewrite main_submitted. cbv zeta.
  unfold selectbox_options in Hsel. apply not_elem_of_cons in Hsel as [Hcloud Hkinds].
  rewrite decide_False by done.
  rewrite create_chart_unsupported by done.
  simpl. by rewrite app_nil_r.
Qed.

End SubmittedRun.

(** * The scenarios of the specification, and instances of the theorems *)

Section Scenarios.

Example scenario_filter :
  filter_words (space_cut (lit "the cat sat on the mat the cat ran"))
    (list_to_set [lit "the"; lit "on"])
  = demo_words.
Proof. vm_compute. reflexivity. Qed.

Example scenario_table :
  Counter_of demo_words
  = [(lit "cat", 2%Z); (lit "sat", 1%Z); (lit "mat", 1%Z); (lit "ran", 1%Z)].
Proof. vm_compute. reflexivity. Qed.

Example scenario_top3 :
  most_common (Counter_of demo_words) 3
  = [(lit "cat", 2%Z); (lit "sat", 1%Z); (lit "mat", 1%Z)].
Proof. vm_compute. reflexivity. Qed.

Example scenario_case_sensitive :
  filter_words [lit "The"; lit "the"; lit " "; EMPTY] (list_to_set [lit "the"])
  = [lit "The"].
Proof. vm_compute. reflexivity. Qed.

Example scenario_unknown_kind :
  create_chart (lit "unknown") (Counter_of demo_words) 20 = Ok None.
Proof. vm_compute. reflexivity. Qed.

Example scenario_empty_text :
  preprocess_text (EMPTY) = EMPTY
  /\ segment_and_count space_cut (EMPTY) ∅ = []
  /\ most_common [] 20 = [].
Proof. vm_compute. auto. Qed.

Example scenario_run :
  main (demo_session (lit "水平条形图"))
  = ([ StTitle (lit "文章URL文本分析工具");
       StSpinner (lit "正在处理...");
       ChartRender
         (WordCloud (EMPTY)
            [(lit "cat", 2%Z); (lit "sat", 1%Z); (lit "mat", 1%Z); (lit "ran", 1%Z)]
            (lit "词云"))
         (lit "./temp/wordcloud.html");
       StWrite (lit "词频最高的20个词：");
       StWrite (lit "cat: 2"); StWrite (lit "sat: 1");
       StWrite (lit "mat: 1"); StWrite (lit "ran: 1");
       ComponentsHtml
         (RenderEmbed
            (Bar [lit "cat"; lit "sat"; lit "mat"; lit "ran"] (lit "词频")
               [2; 1; 1; 1]%Z true (lit "水平条形图")))
         (Some 1000%Z) (Some 800%Z) ],
     Ok tt).
Proof. vm_compute. reflexivity. Qed.

Example scenario_no_url :
  main {| text_input := EMPTY; selectbox := lit "词云"; button := true;
          fetch_text_from_url := fun _ => Raise RequestException;
          stopwords_txt := Raise OSError; jieba_cut := space_cut |}
  = ([ StTitle (lit "文章URL文本分析工具");
       StWarning (lit "请输入有效的URL以进行分析！") ], Ok tt).
Proof. vm_compute. reflexivity. Qed.

Example scenario_not_submitted :
  main {| text_input := lit "http://example.org/"; selectbox := lit "词云";
          button := false;
          fetch_text_from_url := fun _ => Raise RequestException;
          stopwords_txt := Raise OSError; jieba_cut := space_cut |}
  = ([ StTitle (lit "文章URL文本分析工具") ], Ok tt).
Proof. vm_compute. reflexivity. Qed.

Example scenario_fetch_fails :
  main {| text_input := lit "http://example.org/"; selectbox := lit "饼图";
          button := true;
          fetch_text_from_url := fun _ => Raise RequestException;
          stopwords_txt := Ok []; jieba_cut := space_cut |}
  = ([ StTitle (lit "文章URL文本分析工具"); StSpinner (lit "正在处理...") ],
     Raise RequestException).
Proof. vm_compute. reflexivity. Qed.

Example scenario_cloud :
  main (demo_session (lit "词云"))
  = ([ StTitle (lit "文章URL文本分析工具");
       StSpinner (lit "正在处理...");
       ChartRender
         (WordCloud (EMPTY)
            [(lit "cat", 2%Z); (lit "sat", 1%Z); (lit "mat", 1%Z); (lit "ran", 1%Z)]
            (lit "词云"))
         (lit "./temp/wordcloud.html");
       StWrite (lit "词频最高的20个词：");
       StWrite (lit "cat: 2"); StWrite (lit "sat: 1");
       StWrite (lit "mat: 1"); StWrite (lit "ran: 1");
       ComponentsHtml (FileContents (lit "./temp/wordcloud.html")) None (Some 600%Z) ],
     Ok tt).
Proof. vm_compute. reflexivity. Qed.

Example scenario_radar :
  create_chart (lit "雷达图") (Counter_of demo_words) 3
  = Ok (Some (Radar [(lit "cat", 2%Z); (lit "sat", 2%Z); (lit "mat", 2%Z)]
                (lit "词频") [[2; 1; 1]%Z] (lit "雷达图"))).
Proof. vm_compute. reflexivity. Qed.

Lemma create_chart_axis_series_witness :
  lit "水平条形图" ∈ axis_kinds
  /\ exists c,
       create_chart (lit "水平条形图") (Counter_of demo_words) 3 = Ok (Some c)
       /\ xaxis_data c = Some [lit "cat"; lit "sat"; lit "mat"]
       /\ yaxis_data c = Some [2; 1; 1]%Z
       /\ axes_reversed c = true.
Proof.
  assert (lit "水平条形图" ∈ axis_kinds) as Hkind.
  { unfold axis_kinds. rewrite !elem_of_cons. auto. }
  split; [exact Hkind|].
  destruct (create_chart_axis_series _ (Counter_of demo_words) 3 Hkind)
    as (c & H1 & H2 & H3 & _ & _ & _ & H4).
  exists c. split; [exact H1|]. split; [exact H2|]. split; [exact H3|].
  by apply H4.
Defined.

Lemma create_chart_radar_witness :
  most_common (Counter_of demo_words) 3 <> []
  /\ exists (schema : list (list Z * Z)) (data : list Z) (max_ : Z),
       create_chart (lit "雷达图") (Counter_of demo_words) 3
       = Ok (Some (Radar schema (lit "词频") [data] (lit "雷达图")))
       /\ List.map fst schema = [lit "cat"; lit "sat"; lit "mat"]
       /\ Forall (fun indicator => snd indicator = max_) schema
       /\ is_max max_ [2; 1; 1]%Z
       /\ data = [2; 1; 1]%Z.
Proof.
  assert (most_common (Counter_of demo_words) 3 <> []) as Hne
    by (vm_compute; discriminate).
  split; [exact Hne|].
  destruct (create_chart_radar (Counter_of demo_words) 3 Hne)
    as (schema & data & max_ & H1 & H2 & H3 & H4 & H5 & _).
  exists schema, data, max_.
  split; [exact H1|]. split; [exact H2|]. split; [exact H3|].
  split; [exact H4 | exact H5].
Defined.

Lemma create_chart_no_entries_witness :
  most_common [] 20 = []
  /\ create_chart (lit "饼图") [] 20 = Raise IndexError.
Proof.
  assert (most_common [] 20 = []) as Htop by reflexivity.
  split; [exact Htop|].
  exact (proj1 (create_chart_no_entries [] 20 Htop)).
Defined.

Lemma word_cloud_full_table_witness :
  text_input (demo_session (lit "词云")) <> []
  /\ button (demo_session (lit "词云")) = true
  /\ fetch_text_from_url (demo_session (lit "词云")) (text_input (demo_session (lit "词云")))
     = Ok (lit "<p>the cat sat on the mat, the cat ran.</p>")
  /\ stopwords_txt (demo_session (lit "词云")) = Ok [lit "the" ++ [NEWLINE]; lit "on" ++ [NEWLINE]]
  /\ ChartRender
       (WordCloud (EMPTY)
          [(lit "cat", 2%Z); (lit "sat", 1%Z); (lit "mat", 1%Z); (lit "ran", 1%Z)]
          (lit "词云"))
       (lit "./temp/wordcloud.html") ∈ fst (main (demo_session (lit "词云"))).
Proof.
  assert (text_input (demo_session (lit "词云")) <> []) as Hurl
    by (vm_compute; discriminate).
  split; [exact Hurl|]. split; [reflexivity|]. split; [reflexivity|].
  split; [reflexivity|].
  exact (proj1 (proj2 (word_cloud_full_table (demo_session (lit "词云"))
                         _ _ Hurl eq_refl eq_refl eq_refl [] []))).
Defined.

Lemma unsupported_chart_kind_witness :
  (lit "unknown" ∉ selectbox_options)
  /\ text_input (demo_session (lit "unknown")) <> []
  /\ button (demo_session (lit "unknown")) = true
  /\ fetch_text_from_url (demo_session (lit "unknown"))
       (text_input (demo_session (lit "unknown")))
     = Ok (lit "<p>the cat sat on the mat, the cat ran.</p>")
  /\ stopwords_txt (demo_session (lit "unknown")) = Ok [lit "the" ++ [NEWLINE]; lit "on" ++ [NEWLINE]]
  /\ create_chart (lit "unknown") (Counter_of demo_words) 20 = Ok None
  /\ main (demo_session (lit "unknown"))
     = ([ StTitle (lit "文章URL文本分析工具");
          StSpinner (lit "正在处理...");
          ChartRender
            (WordCloud (EMPTY)
               [(lit "cat", 2%Z); (lit "sat", 1%Z); (lit "mat", 1%Z); (lit "ran", 1%Z)]
               (lit "词云"))
            (lit "./temp/wordcloud.html");
          StWrite (lit "词频最高的20个词：");
          StWrite (lit "cat: 2"); StWrite (lit "sat: 1");
          StWrite (lit "mat: 1"); StWrite (lit "ran: 1") ],
        Ok tt).
Proof.
  assert (lit "unknown" ∉ selectbox_options) as Hsel.
  { unfold selectbox_options. rewrite !not_elem_of_cons.
    repeat split; try (vm_compute; discriminate). apply not_elem_of_nil. }
  assert (text_input (demo_session (lit "unknown")) <> []) as Hurl
    by (vm_compute; discriminate).
  destruct (unsupported_chart_kind (demo_session (lit "unknown")) _ _
              Hurl eq_refl eq_refl eq_refl Hsel) as (H1 & _ & H3).
  split; [exact Hsel|]. split; [exact Hurl|]. split; [reflexivity|].
  split; [reflexivity|]. split; [reflexivity|]. split; [|exact H3].
  apply H1. unfold chart_kinds. rewrite !not_elem_of_cons.
  repeat split; try (vm_compute; discriminate). apply not_elem_of_nil.
Defined.

End Scenarios.

(** * Further properties of the normalizer *)

Section TagStripping.

Lemma re_sub_from_drop (m : list Z -> option nat) (repl : list Z) (k : nat) (s : list Z) :
  re_sub_from m repl k s = re_sub_from m repl 0 (drop k s).
Proof.
  revert k. induction s as [|c s IH]; intros [|k]; simpl; done.
Qed.

Lemma lazy_dots_gt_pos (s : list Z) (k : nat) : lazy_dots_gt s = Some k -> 0 < k.
Proof.
  destruct s as [|c s]; simpl; [done|].
  destruct (c =? GT)%Z; [intros [= <-]; lia|].
  destruct (c =? NEWLINE)%Z; [done|].
  destruct (lazy_dots_gt s); simpl; [intros [= <-]; lia | done].
Qed.

(** The first substitution, one step at a time. *)
Lemma re_sub_tag_cons (c : Z) (s : list Z) :
  re_sub pat_tag [] (c :: s) =
  if (c =? LT)%Z then
    match lazy_dots_gt s with
    | Some k => re_sub pat_tag [] (drop k s)
    | None => c :: re_sub pat_tag [] s
    end
  else c :: re_sub pat_tag [] s.
Proof.
  unfold re_sub. simpl. destruct (c =? LT)%Z; [|done].
  destruct (lazy_dots_gt s) as [k|] eqn:E; simpl; [|done].
  by rewrite re_sub_from_drop.
Qed.

(** A [>] that closes a tag opened just before the output is already there
    in the input: the substitution removes no newline. *)
Lemma lazy_dots_gt_re_sub (s : list Z) :
  lazy_dots_gt s = None -> lazy_dots_gt (re_sub pat_tag [] s) = None.
Proof.
  induction s as [|c s IH]; [done|].
  rewrite re_sub_tag_cons. simpl.
  destruct (Z.eqb_spec c GT) as [->|Hgt]; [done|].
  destruct (Z.eqb_spec c NEWLINE) as [->|Hnl]; [done|].
  destruct (lazy_dots_gt s) as [k|] eqn:E; [done|]. intros _.
  destruct (c =? LT)%Z; simpl;
    rewrite (proj2 (Z.eqb_neq c GT) Hgt), (proj2 (Z.eqb_neq c NEWLINE) Hnl);
    by rewrite IH.
Qed.

Lemma re_sub_tag_clean (s : list Z) (i : nat) :
  pat_tag (drop i (re_sub pat_tag [] s)) = None.
Proof.
  remember (length s) as n eqn:Hn. revert s Hn i.
  induction n as [n IH] using lt_wf_ind. intros [|c s] Hn i.
  - by destruct i.
  - rewrite re_sub_tag_cons. simpl in Hn.
    destruct (Z.eqb_spec c LT) as [->|Hlt].
    + destruct (lazy_dots_gt s) as [k|] eqn:E.
      * apply (IH (length (drop k s))); [|done].
        rewrite length_drop. lia.
      * destruct i as [|i]; simpl.
        -- by rewrite lazy_dots_gt_re_sub.
        -- apply (IH (length s)); [lia | done].
    + destruct i as [|i]; simpl.
      * by rewrite (proj2 (Z.eqb_neq c LT) Hlt).
      * apply (IH (length s)); [lia | done].
Qed.

Lemma re_sub_no_match (m : list Z -> option nat) (repl s : list Z) :
  (forall i, m (drop i s) = None) -> re_sub m repl s = s.
Proof.
  unfold re_sub. induction s as [|c s IH]; intros H; simpl; [done|].
  pose proof (H 0) as H0. simpl in H0. rewrite H0.
  f_equal. apply IH. intros i. apply (H (S i)).
Qed.

(** X1. After the first substitution of [preprocess_text] the tag pattern
    matches at no position of the text, so that substituting again changes
    nothing. *)
Theorem re_sub_tag_complete (s : list Z) :
  (forall i, pat_tag (drop i (re_sub pat_tag [] s)) = None)
  /\ re_sub pat_tag [] (re_sub pat_tag [] s) = re_sub pat_tag [] s.
Proof.
  split; [apply re_sub_tag_clean|].
  apply re_sub_no_match, re_sub_tag_clean.
Qed.

End TagStripping.

Section NormalizerShape.

Lemma re_sub_from_length (m : list Z -> option nat) (repl : list Z) (k : nat) (s : list Z) :
  length repl <= 1 -> length (re_sub_from m repl k s) <= length s.
Proof.
  intros Hr. revert k. induction s as [|c s IH]; intros k; simpl; [done|].
  destruct k as [|k].
  - destruct (m (c :: s)) as [[|j]|]; simpl; rewrite ?length_app;
      try (specialize (IH 0); lia). specialize (IH j). lia.
  - specialize (IH k). lia.
Qed.

Lemma strip_length (s : list Z) : length (strip s) <= length s.
Proof.
  destruct (strip_infix s) as (p & q & H). rewrite H at 2.
  rewrite !length_app. lia.
Qed.

(** X2. [preprocess_text] never returns a longer text than it was given. *)
Theorem preprocess_text_length (x : list Z) :
  length (preprocess_text x) <= length x.
Proof.
  unfold preprocess_text, re_sub.
  etrans; [apply strip_length|].
  etrans; [apply re_sub_from_length; simpl; lia|].
  etrans; [apply re_sub_from_length; simpl; lia|].
  apply re_sub_from_length. simpl. lia.
Qed.

Lemma letters_app (a b : list Z) : letters (a ++ b) = letters a ++ letters b.
Proof. apply List.filter_app. Qed.

Lemma letters_reverse (s : list Z) : letters (reverse s) = reverse (letters s).
Proof.
  induction s as [|c s IH]; [done|].
  rewrite reverse_cons, letters_app, IH. unfold letters at 2 3. simpl.
  destruct (in_alphabet c); simpl; [by rewrite reverse_cons | by rewrite app_nil_r].
Qed.

Lemma letters_lstrip (s : list Z) : letters (lstrip s) = letters s.
Proof.
  induction s as [|c s IH]; simpl; [done|].
  destruct (isspace c) eqn:E; [|done].
  rewrite IH. destruct (in_alphabet c) eqn:Ea; [|done].
  apply letter_not_space in Ea. congruence.
Qed.

Lemma letters_strip (s : list Z) : letters (strip s) = letters s.
Proof.
  unfold strip, rstrip.
  by rewrite letters_reverse, letters_lstrip, letters_reverse, reverse_involutive,
    letters_lstrip.
Qed.

Lemma letters_squeeze (b : bool) (s : list Z) : letters (squeeze b s) = letters s.
Proof.
  revert b. induction s as [|c s IH]; intros b; simpl; [done|].
  destruct (isspace c) eqn:E.
  - destruct (in_alphabet c) eqn:Ea; [apply letter_not_space in Ea; congruence|].
    destruct b; simpl; by rewrite IH.
  - simpl. by rewrite IH.
Qed.

Lemma letters_other (s : list Z) :
  letters (List.map (fun c => if in_alphabet c then c else SPACE) s) = letters s.
Proof.
  induction s as [|c s IH]; simpl; [done|].
  destruct (in_alphabet c) eqn:E; simpl; rewrite ?E, IH; done.
Qed.

Lemma letters_preprocess_text (x : list Z) :
  letters (preprocess_text x) = letters (re_sub pat_tag [] x).
Proof.
  unfold preprocess_text.
  by rewrite letters_strip, re_sub_spaces, letters_squeeze, re_sub_other_map,
    letters_other.
Qed.

(** X3. [preprocess_text] keeps the letters that are outside tags, all of
    them and in their order; on a text without [<] these are all the letters
    of the text. *)
Theorem preprocess_text_letters (x : list Z) :
  letters (preprocess_text x) = letters (re_sub pat_tag [] x)
  /\ (Forall (fun c => c <> LT) x -> letters (preprocess_text x) = letters x).
Proof.
  split; [apply letters_preprocess_text|].
  intros H. by rewrite letters_preprocess_text, re_sub_tag_id.
Qed.

Lemma lstrip_nil (s : list Z) :
  lstrip s = [] <-> Forall (fun c => isspace c = true) s.
Proof.
  induction s as [|c s IH]; simpl; [done|].
  destruct (isspace c) eqn:E.
  - rewrite IH. split; [by constructor | by intros [_ ?]%Forall_cons].
  - split; [done|]. intros [? _]%Forall_cons. congruence.
Qed.

Lemma strip_nil (s : list Z) :
  strip s = [] <-> Forall (fun c => isspace c = true) s.
Proof.
  rewrite <- lstrip_nil. unfold strip, rstrip. split.
  - intros H. apply (f_equal reverse) in H. rewrite reverse_involutive in H.
    simpl in H. apply lstrip_nil in H. rewrite Forall_reverse in H.
    pose proof (lstrip_starts_clean s) as Hc.
    destruct (lstrip s) as [|c t]; [done|].
    apply Forall_cons in H as [H _]. apply starts_clean_cons in Hc. congruence.
  - by intros ->.
Qed.

Lemma letters_nil (s : list Z) :
  letters s = [] <-> Forall (fun c => in_alphabet c = false) s.
Proof.
  induction s as [|c s IH]; simpl; [done|]. unfold letters in *. simpl.
  destruct (in_alphabet c) eqn:E.
  - split; [done|]. intros [? _]%Forall_cons. congruence.
  - rewrite IH. split; [by constructor | by intros [_ ?]%Forall_cons].
Qed.

(** X4. [preprocess_text] returns the empty text exactly when no letter is
    left outside tags: a text of digits, punctuation, whitespace and tags
    only gives the empty text. *)
Theorem preprocess_text_empty (x : list Z) :
  preprocess_text x = [] <-> letters (re_sub pat_tag [] x) = [].
Proof.
  split.
  - intros H. by rewrite <- letters_preprocess_text, H.
  - intros H%letters_nil. unfold preprocess_text.
    apply strip_nil. rewrite re_sub_spaces.
    apply squeeze_Forall; [done|]. rewrite re_sub_other_map.
    apply List.Forall_forall. intros c (c0 & <- & Hc)%in_map_iff.
    rewrite List.Forall_forall in H. by rewrite (H c0 Hc).
Qed.

Lemma normalized_fixed (y : list Z) : normalized y -> preprocess_text y = y.
Proof.
  intros (Hc & Hs & Hh & Hl).
  assert (Forall (fun c => in_alphabet c = true \/ c = SPACE) y) as Hc'.
  { eapply Forall_impl; [exact Hc|].
    intros c [H|H]; [left; by apply in_alphabet_letter | by right]. }
  unfold preprocess_text.
  rewrite re_sub_tag_id.
  2:{ eapply Forall_impl; [exact Hc'|].
      intros c [H| ->] E; [subst c; vm_compute in H | vm_compute in E]; done. }
  rewrite re_sub_other_map.
  replace (List.map _ y) with y.
  2:{ clear Hc Hs Hh Hl. induction Hc' as [|c y [H| ->] _ IH]; simpl; [done| |];
      rewrite <- IH; [by rewrite H | done]. }
  rewrite re_sub_spaces, squeeze_id; [by apply strip_id | | done | done].
  eapply Forall_impl; [exact Hc'|]. intros c [H| ->]; [|done].
  rewrite (letter_not_space c H). done.
Qed.

(** X5. The texts [preprocess_text] leaves unchanged are exactly the
    normalized ones: letters (CJK ideographs, ASCII letters) separated by
    single spaces, with no whitespace at either end. *)
Theorem preprocess_text_fixed_points (y : list Z) :
  preprocess_text y = y <-> normalized y.
Proof.
  split; [|apply normalized_fixed].
  intros H. unfold normalized. rewrite <- H. split_and!.
  - eapply Forall_impl; [apply preprocess_text_chars|].
    intros c [Hc|Hc]; [left; by apply in_alphabet_letter | by right].
  - apply preprocess_text_single_spaced.
  - apply strip_starts_clean.
  - apply strip_ends_clean.
Qed.

End NormalizerShape.

(** * Further properties of filtering and counting *)

Section FilterAndCount.

Implicit Types (w : list Z) (ws : list (list Z)) (stopwords : gset (list Z)).

Lemma strip_visible w : strip w <> [] <-> has_visible w.
Proof.
  rewrite strip_nil. unfold has_visible. split.
  - intros H. induction w as [|c w IH]; [by destruct H|].
    destruct (isspace c) eqn:E.
    + destruct IH as (d & Hd & Hs).
      * intros Hw. apply H. by constructor.
      * exists d. split; [by apply elem_of_cons; right | done].
    + exists c. split; [by apply elem_of_cons; left | done].
  - intros (c & Hc & Hs) H. rewrite Forall_forall in H.
    specialize (H c Hc). congruence.
Qed.

(** X6. The filter of [segment_and_count] keeps a token exactly when some
    character of it is not whitespace and the token is not a stopword: the
    empty token and the tokens of whitespace only are dropped. *)
Theorem keep_word_visible stopwords w :
  keep_word stopwords w = true <-> has_visible w /\ (w ∉ stopwords).
Proof. by rewrite keep_word_spec, strip_visible. Qed.

Lemma keep_word_union (s1 s2 : gset (list Z)) w :
  keep_word (s1 ∪ s2) w = keep_word s1 w && keep_word s2 w.
Proof.
  unfold keep_word.
  destruct (bool_decide (strip w = [])); simpl; [done|].
  rewrite <- bool_decide_and. apply bool_decide_ext, not_elem_of_union.
Qed.

Lemma filter_filter {A : Type} (f g : A -> bool) (l : list A) :
  List.filter f (List.filter g l) = List.filter (fun x => g x && f x) l.
Proof.
  induction l as [|x l IH]; simpl; [done|].
  destruct (g x); simpl; [destruct (f x)|]; by rewrite IH.
Qed.

(** X7. Filtering with one stopword set and then with another is filtering
    once with their union; filtering twice with the same set changes
    nothing more. *)
Theorem filter_words_compose (tokens : list (list Z)) (s1 s2 : gset (list Z)) :
  filter_words (filter_words tokens s1) s2 = filter_words tokens (s1 ∪ s2)
  /\ filter_words (filter_words tokens s1) s1 = filter_words tokens s1.
Proof.
  assert (forall a b : gset (list Z),
            filter_words (filter_words tokens a) b = filter_words tokens (a ∪ b)) as H.
  { intros a b. unfold filter_words. rewrite filter_filter.
    apply List.filter_ext. intros w. by rewrite keep_word_union. }
  split; [apply H|]. by rewrite H, union_idemp_L.
Qed.

Lemma list_count_filter (f : list Z -> bool) w ws :
  list_count w (List.filter f ws) = if f w then list_count w ws else 0%Z.
Proof.
  induction ws as [|v ws IH]; simpl; [by destruct (f w)|].
  destruct (f v) eqn:Ev; simpl; rewrite IH.
  - destruct (decide (v = w)) as [->|]; [by rewrite Ev | done].
  - destruct (decide (v = w)) as [->|]; [by rewrite Ev | done].
Qed.

Lemma list_count_app w (a b : list (list Z)) :
  list_count w (a ++ b) = (list_count w a + list_count w b)%Z.
Proof. induction a as [|v a IH]; simpl; [done|]. rewrite IH. lia. Qed.

Lemma list_count_perm w (a b : list (list Z)) :
  a ≡ₚ b -> list_count w a = list_count w b.
Proof. induction 1; simpl; lia. Qed.

Section WithTokenizer.

Variable cut : list Z -> list (list Z).

(** X8. The table of [segment_and_count] gives a token that passes the
    filter the number of times the tokenizer produced it, and every other
    string (a stopword, a blank token, a string that is no token) zero. *)
Theorem segment_and_count_get (text : list Z) stopwords w :
  get (segment_and_count cut text stopwords) w 0
  = if keep_word stopwords w then list_count w (cut text) else 0%Z.
Proof.
  unfold segment_and_count, filter_words.
  by rewrite Counter_of_get, list_count_filter.
Qed.

(** X9. The counts of the table of [segment_and_count] add up to the
    number of tokens that passed the filter, which is at most the number of
    tokens; every entry of the table is a token that passed the filter and
    has a count of at least one. *)
Theorem segment_and_count_total (text : list Z) stopwords :
  total (segment_and_count cut text stopwords)
  = Z.of_nat (length (filter_words (cut text) stopwords))
  /\ (total (segment_and_count cut text stopwords) <= Z.of_nat (length (cut text)))%Z
  /\ (forall w c, (w, c) ∈ items (segment_and_count cut text stopwords) ->
         (1 <= c)%Z /\ w ∈ cut text /\ keep_word stopwords w = true).
Proof.
  unfold segment_and_count. rewrite Counter_of_total.
  pose proof (sublist_length _ _ (filter_sublist (keep_word stopwords) (cut text))) as Hl.
  split; [done|]. split; [unfold filter_words; lia|].
  intros w c [Hw ->]%Counter_of_items.
  pose proof (proj1 (list_count_pos _ _) Hw).
  apply list_elem_of_In in Hw. unfold filter_words in Hw.
  apply filter_In in Hw as [Hw Hk]. apply list_elem_of_In in Hw.
  split; [lia | done].
Qed.

End WithTokenizer.

Lemma NoDup_items ws : NoDup (items (Counter_of ws)).
Proof.
  pose proof (Counter_of_NoDup ws) as H. unfold keys, items in *.
  induction (Counter_of ws) as [|[k v] m IH]; [constructor|].
  simpl in H. apply NoDup_cons in H as [Hk Hm]. constructor; [|auto].
  intros Hin. apply Hk. by eapply elem_of_keys.
Qed.

(** X10. The table does not depend on the order of the tokens, except in
    the order of its entries: two sequences with the same tokens, each as
    often, give tables with the same entries and the same counts. *)
Theorem Counter_of_perm (words words' : list (list Z)) :
  words ≡ₚ words' ->
  items (Counter_of words) ≡ₚ items (Counter_of words')
  /\ (forall w, get (Counter_of words) w 0 = get (Counter_of words') w 0).
Proof.
  intros Hp. split.
  - apply NoDup_Permutation; [apply NoDup_items..|].
    intros [w c]. rewrite !Counter_of_items, (list_count_perm w _ _ Hp).
    by rewrite Hp.
  - intros w. by rewrite !Counter_of_get, (list_count_perm w _ _ Hp).
Qed.

(** X11. Counting a sequence in two parts: continuing the table of the
    first part with the second part is the table of the whole, and the count
    of a token in it is the sum of its counts in the tables of the parts. *)
Theorem Counter_of_app (a b : list (list Z)) :
  count_elements (Counter_of a) b = Counter_of (a ++ b)
  /\ (forall w, get (Counter_of (a ++ b)) w 0
                = (get (Counter_of a) w 0 + get (Counter_of b) w 0)%Z).
Proof.
  split.
  - unfold Counter_of, count_elements. by rewrite fold_left_app.
  - intros w. by rewrite !Counter_of_get, list_count_app.
Qed.

End FilterAndCount.

(** * Further properties of the top-N query *)

Section TopNMore.

Implicit Types (m : list (list Z * Z)) (n : Z).

Lemma sorted_desc_by_count m :
  StronglySorted (fun a b => (snd b <= snd a)%Z) (sorted_desc m).
Proof.
  eapply StronglySorted_mono; [|apply (sorted_desc_stable (fun _ _ => True)),
                                  StronglySorted_total].
  intros a b [H|[H _]]; lia.
Qed.

Lemma most_common_split m n :
  exists rest, sorted_desc (items m) = most_common m n ++ rest.
Proof.
  unfold most_common. destruct (n <=? 0)%Z.
  - by exists (sorted_desc (items m)).
  - exists (drop (Z.to_nat n) (sorted_desc (items m))). by rewrite take_drop.
Qed.

(** X12. [most_common] selects entries with the largest counts: the entries
    it returns and the entries it leaves out make up the table, and no entry
    left out has a larger count than an entry returned. *)
Theorem most_common_largest m n :
  exists rest,
    most_common m n ++ rest ≡ₚ items m
    /\ (forall e e', e ∈ most_common m n -> e' ∈ rest -> (snd e' <= snd e)%Z).
Proof.
  destruct (most_common_split m n) as [rest Hrest]. exists rest. split.
  - rewrite <- Hrest. apply sorted_desc_perm.
  - intros e e' He He'. pose proof (sorted_desc_by_count (items m)) as Hs.
    rewrite Hrest in Hs.
    by apply (StronglySorted_app_1_elem_of _ _ _ _ _ Hs He He').
Qed.

(** X13. A shorter ranking is the beginning of a longer one: for
    [n <= n'] the result of [most_common(n)] is a prefix of the result of
    [most_common(n')]. *)
Theorem most_common_prefix m n n' :
  (n <= n')%Z -> most_common m n `prefix_of` most_common m n'.
Proof.
  intros Hn. unfold most_common.
  destruct (Z.leb_spec n 0) as [H|H]; [apply prefix_nil|].
  destruct (Z.leb_spec n' 0) as [H'|H']; [lia|].
  exists (drop (Z.to_nat n) (take (Z.to_nat n') (sorted_desc (items m)))).
  rewrite <- (take_drop (Z.to_nat n) (take (Z.to_nat n') _)) at 1.
  f_equal. rewrite take_take. f_equal. lia.
Qed.

Lemma NoDup_map_fst_perm (a b : list (list Z * Z)) :
  a ≡ₚ b -> NoDup (List.map fst a) -> NoDup (List.map fst b).
Proof. intros Hp. by rewrite (Permutation_map fst Hp). Qed.

Lemma NoDup_map_fst_take (k : nat) (a : list (list Z * Z)) :
  NoDup (List.map fst a) -> NoDup (List.map fst (take k a)).
Proof.
  intros H. rewrite <- (take_drop k a), List.map_app in H.
  by apply NoDup_app in H as [H _].
Qed.

(** X14. The ranking of a table built by [Counter] lists no token twice,
    each listed token occurs in the counted sequence and stands with its
    number of occurrences, and the ranking has as many entries as there are
    distinct tokens, up to [n]. *)
Theorem most_common_distinct (words : list (list Z)) n :
  NoDup (List.map fst (most_common (Counter_of words) n))
  /\ (forall w c, (w, c) ∈ most_common (Counter_of words) n ->
         w ∈ words /\ c = list_count w words)
  /\ length (most_common (Counter_of words) n)
     = Nat.min (Z.to_nat n) (length (keys (Counter_of words))).
Proof.
  split_and!.
  - unfold most_common. destruct (n <=? 0)%Z; [constructor|].
    apply NoDup_map_fst_take.
    eapply NoDup_map_fst_perm; [symmetry; apply sorted_desc_perm|].
    apply Counter_of_NoDup.
  - intros w c H%most_common_elem_of. by apply Counter_of_items.
  - rewrite most_common_length. unfold keys, items. by rewrite length_map.
Qed.

End TopNMore.

(** * Further properties of the charts *)

Section ChartsMore.

Implicit Types (word_counts : list (list Z * Z)) (top_n : Z).

Lemma radar_schema_total (words : list (list Z)) (counts : list Z) :
  (words <> [] -> counts <> []) ->
  exists schema,
    mapM (M := result) (fun word => max_ ← py_max counts; mret (word, max_)) words
    = Ok schema.
Proof.
  intros H. destruct words as [|w words]; [by exists []|].
  destruct (py_max_nonempty counts) as [m Hm]; [by apply H|].
  eexists. by apply radar_schema.
Qed.

Lemma zip_fst_snd {A B : Type} (l : list (A * B)) :
  zip (List.map fst l) (List.map snd l) = l.
Proof. induction l as [|[a b] l IH]; simpl; [done|]. by rewrite IH. Qed.

Lemma pie_chart_eq word_counts top_n :
  create_chart (lit "饼图") word_counts top_n
  = match most_common word_counts top_n with
    | [] => Raise IndexError
    | _ => Ok (Some (Pie EMPTY (most_common word_counts top_n) (lit "饼图")))
    end.
Proof.
  rewrite create_chart_eq. cbv zeta. decide_lit. rewrite zip_fst_snd.
  by destruct (most_common word_counts top_n).
Qed.

Lemma create_chart_supported (chart_type : list Z) word_counts top_n :
  chart_type ∈ chart_kinds ->
  ~ pie_without_entries chart_type word_counts top_n ->
  exists c, create_chart chart_type word_counts top_n = Ok (Some c).
Proof.
  unfold chart_kinds, pie_without_entries. rewrite !elem_of_cons, elem_of_nil.
  intros [->|[->|[->|[->|[->|[->|[->|[]]]]]]]] Hpie;
    try (rewrite create_chart_eq; cbv zeta; decide_lit; by eexists).
  - rewrite pie_chart_eq.
    destruct (most_common word_counts top_n) eqn:E; [by destruct Hpie | by eexists].
  - rewrite create_chart_eq. cbv zeta. decide_lit.
    destruct (radar_schema_total (List.map fst (most_common word_counts top_n))
                (List.map snd (most_common word_counts top_n))) as [schema ->].
    + by destruct (most_common word_counts top_n).
    + by eexists.
Qed.

Lemma pie_without_entries_kind (chart_type : list Z) word_counts top_n :
  pie_without_entries chart_type word_counts top_n -> chart_type ∈ chart_kinds.
Proof. intros [-> _]. unfold chart_kinds. rewrite !elem_of_cons. auto. Qed.

Lemma pie_chart_raises (chart_type : list Z) word_counts top_n :
  pie_without_entries chart_type word_counts top_n ->
  create_chart chart_type word_counts top_n = Raise IndexError.
Proof. intros [-> H]. by rewrite pie_chart_eq, H. Qed.

(** The three outcomes of [create_chart]. *)
Lemma create_chart_cases (chart_type : list Z) word_counts top_n :
  (pie_without_entries chart_type word_counts top_n
   /\ create_chart chart_type word_counts top_n = Raise IndexError)
  \/ (chart_type ∈ chart_kinds
      /\ ~ pie_without_entries chart_type word_counts top_n
      /\ exists c, create_chart chart_type word_counts top_n = Ok (Some c))
  \/ ((chart_type ∉ chart_kinds)
      /\ create_chart chart_type word_counts top_n = Ok None).
Proof.
  destruct (decide (chart_type ∈ chart_kinds)) as [Hin|Hout].
  - destruct (decide (chart_type = lit "饼图")) as [Hp|Hp].
    + destruct (most_common word_counts top_n) eqn:E.
      * left. split; [done|]. by apply pie_chart_raises.
      * right; left. assert (~ pie_without_entries chart_type word_counts top_n) as Hn
          by (intros [_ H]; congruence).
        split_and!; [done..|]. by apply create_chart_supported.
    + right; left. assert (~ pie_without_entries chart_type word_counts top_n) as Hn
        by (by intros [? _]).
      split_and!; [done..|]. by apply create_chart_supported.
  - right; right. split; [done|]. by apply create_chart_unsupported.
Qed.

(** X15. [create_chart] raises in one case only, the pie chart of a ranking
    without entries, where [Pie().add] raises [IndexError]; [max] in the
    radar branch never raises. In every other case it returns a chart for
    the seven kinds it has a branch for, and [None] for any other string. *)
Theorem create_chart_outcome (chart_type : list Z) word_counts top_n :
  (forall e, create_chart chart_type word_counts top_n = Raise e
             <-> e = IndexError /\ pie_without_entries chart_type word_counts top_n)
  /\ ((exists c, create_chart chart_type word_counts top_n = Ok (Some c))
      <-> chart_type ∈ chart_kinds
          /\ ~ pie_without_entries chart_type word_counts top_n)
  /\ (create_chart chart_type word_counts top_n = Ok None
      <-> chart_type ∉ chart_kinds).
Proof.
  destruct (create_chart_cases chart_type word_counts top_n)
    as [[Hp H]|[(Hin & Hp & c & H)|[Hout H]]]; rewrite H; split_and!.
  - intros e. split; [by intros [= <-] | by intros [-> _]].
  - split; [by intros [c [=]] | by intros [_ ?]].
  - split; [done|]. intros Hout. destruct Hout. by eapply pie_without_entries_kind.
  - intros e. split; [done | by intros [_ ?]].
  - split; [done | by eexists].
  - split; [done | by intros ?].
  - intros e. split; [done|]. intros [_ Hp]. destruct Hout.
    by eapply pie_without_entries_kind.
  - split; [by intros [c [=]] | by intros [? _]].
  - done.
Qed.

(** X16. When the ranking has at least one entry, the pie chart receives
    the top entries themselves, in ranked order: splitting them into words
    and counts and pairing these again gives the entries back. *)
Theorem create_chart_pie word_counts top_n :
  most_common word_counts top_n <> [] ->
  create_chart (lit "饼图") word_counts top_n
  = Ok (Some (Pie EMPTY (most_common word_counts top_n) (lit "饼图"))).
Proof.
  intros Hne. rewrite pie_chart_eq.
  by destruct (most_common word_counts top_n).
Qed.

Lemma is_max_unique (a b : Z) (l : list Z) : is_max a l -> is_max b l -> a = b.
Proof.
  intros [Ha Hla] [Hb Hlb]. rewrite Forall_forall in Hla, Hlb.
  specialize (Hla b Hb). specialize (Hlb a Ha). lia.
Qed.

Lemma most_common_head_max word_counts top_n (w : list Z) (c : Z) :
  head (most_common word_counts top_n) = Some (w, c) ->
  is_max c (List.map snd (most_common word_counts top_n)).
Proof.
  pose proof (most_common_sorted (fun _ _ => True) word_counts top_n
                (StronglySorted_total _)) as Hs.
  destruct (most_common word_counts top_n) as [|e top]; [done|].
  intros [= ->]. simpl. apply StronglySorted_cons in Hs as [Hall _]. split.
  - apply elem_of_cons. by left.
  - constructor; [lia|]. apply List.Forall_forall.
    intros v (e & <- & He)%in_map_iff. rewrite List.Forall_forall in Hall.
    destruct (Hall e He) as [H|[H _]]; simpl in H; lia.
Qed.

(** X17. The scale of the radar chart is the count of the first ranked
    entry; for a table built by [Counter] every value of the data vector
    lies between one and that scale. *)
Theorem radar_scale_first_count (words : list (list Z)) top_n (w1 : list Z) (c1 : Z) :
  head (most_common (Counter_of words) top_n) = Some (w1, c1) ->
  exists (schema : list (list Z * Z)) (data : list Z),
    create_chart (lit "雷达图") (Counter_of words) top_n
    = Ok (Some (Radar schema (lit "词频") [data] (lit "雷达图")))
    /\ Forall (fun indicator => snd indicator = c1) schema
    /\ Forall (fun v => (1 <= v <= c1)%Z) data.
Proof.
  intros Hhead. pose proof (most_common_head_max _ _ _ _ Hhead) as Hmax.
  set (top_words := most_common (Counter_of words) top_n) in *.
  destruct (py_max_nonempty (List.map snd top_words)) as [m Hm].
  { by destruct top_words. }
  assert (m = c1) as -> by (eapply is_max_unique; [by apply py_max_spec | done]).
  exists (List.map (fun word => (word, c1)) (List.map fst top_words)),
         (List.map snd top_words).
  split_and!.
  - rewrite create_chart_eq. cbv zeta. decide_lit. fold top_words.
    by rewrite (radar_schema _ _ c1 Hm).
  - apply List.Forall_forall. by intros ? (? & <- & _)%in_map_iff.
  - destruct Hmax as [_ Hle]. rewrite List.Forall_forall in Hle.
    apply List.Forall_forall. intros v Hv. split; [|by apply Hle].
    apply in_map_iff in Hv as ([w c] & <- & He). simpl.
    apply list_elem_of_In, most_common_elem_of, Counter_of_items in He as [Hw ->].
    apply list_count_pos in Hw. lia.
Qed.

End ChartsMore.

(** * Further properties of the run *)

Section RunEdges.

Lemma M_bind_Raise {A B : Type} (t : list event) (e : exn) (f : A -> M B) :
  ((t, Raise e) ≫= f) = (t, Raise e).
Proof. done. Qed.

(** X18. Without a URL, or as long as the button is not pressed, [main]
    only shows the title (and, without a URL, the warning): it fetches
    nothing, writes no file and raises nothing, whatever the page, the
    stopword file and the tokenizer would give. *)
Theorem main_idle (w : session) :
  text_input w = [] \/ button w = false ->
  main w
  = (StTitle (lit "文章URL文本分析工具")
       :: (if decide (text_input w = [])
           then [StWarning (lit "请输入有效的URL以进行分析！")] else []),
     Ok tt).
Proof.
  intros H. unfold main. cbv zeta. rewrite emit_bind.
  change EMPTY with (@nil Z).
  destruct (decide (text_input w = [])) as [Hurl|Hurl]; [done|].
  destruct H as [H|H]; [done|]. by rewrite H.
Qed.

(** X19. When fetching the page raises, or the page is fetched and opening
    the stopword file raises, a submitted run raises that exception after
    the title and the spinner: no file is written and nothing of the
    analysis is shown. *)
Theorem main_input_error (w : session) (e : exn) :
  text_input w <> [] -> button w = true ->
  fetch_text_from_url w (text_input w) = Raise e
  \/ (exists text, fetch_text_from_url w (text_input w) = Ok text
                   /\ stopwords_txt w = Raise e) ->
  main w
  = ([StTitle (lit "文章URL文本分析工具"); StSpinner (lit "正在处理...")], Raise e).
Proof.
  intros Hurl Hbutton H. unfold main. cbv zeta.
  rewrite (decide_False (P := text_input w = EMPTY)) by done.
  rewrite Hbutton, !emit_bind.
  destruct H as [->|(text & -> & ->)].
  - by rewrite lift_Raise_bind.
  - by rewrite lift_Ok_bind, lift_Raise_bind.
Qed.

End RunEdges.

Section CompletedRun.

Variable w : session.
Variable text : list Z.
Variable lines : list (list Z).

Hypothesis url_given : text_input w <> [].
Hypothesis submitted : button w = true.
Hypothesis page_fetched : fetch_text_from_url w (text_input w) = Ok text.
Hypothesis stopwords_read : stopwords_txt w = Ok lines.

Let word_counts : list (list Z * Z) :=
  segment_and_count (jieba_cut w) (preprocess_text text)
    (list_to_set (List.map strip lines)).

Lemma cloud_not_chart_kind : lit "词云" ∉ chart_kinds.
Proof.
  unfold chart_kinds. rewrite !not_elem_of_cons.
  repeat split; try (vm_compute; discriminate). apply not_elem_of_nil.
Qed.

(** X20. Once the page and the stopword file are read, a submitted run
    shows the events of the analysis and then ends in one of two ways: with
    the pie chart selected and no entry in the ranking it raises
    [IndexError] and embeds nothing; in every other case it ends normally
    after embedding at most one component. *)
Theorem main_after_analysis :
  (pie_without_entries (selectbox w) word_counts 20 ->
   main w = (analysis_events word_counts, Raise IndexError))
  /\ (~ pie_without_entries (selectbox w) word_counts 20 ->
      exists tail,
        main w = (analysis_events word_counts ++ tail, Ok tt) /\ length tail <= 1).
Proof.
  rewrite (main_submitted w text lines) by done. cbv zeta. fold word_counts.
  split.
  - intros Hp. pose proof Hp as [Hsel _].
    rewrite decide_False.
    2:{ rewrite Hsel. vm_compute. discriminate. }
    rewrite (pie_chart_raises _ _ _ Hp). simpl. by rewrite app_nil_r.
  - intros Hp. destruct (decide (selectbox w = lit "词云")) as [Hc|Hc].
    + eexists. split; [reflexivity | simpl; lia].
    + destruct (create_chart_cases (selectbox w) word_counts 20)
        as [[Hp' _]|[(_ & _ & c & ->)|[_ ->]]]; [done|..];
        rewrite lift_Ok_bind; eexists; (split; [reflexivity | simpl; lia]).
Qed.

(** X21. For each of the seven chart kinds of [create_chart], except for
    the pie chart of a ranking without entries, a submitted run ends, after
    the events of the analysis, by embedding exactly the chart that
    [create_chart] returns for the table and the top 20, at 1000 by 800. *)
Theorem main_embeds_chart :
  selectbox w ∈ chart_kinds ->
  ~ pie_without_entries (selectbox w) word_counts 20 ->
  exists c,
    create_chart (selectbox w) word_counts 20 = Ok (Some c)
    /\ main w
       = (analysis_events word_counts
            ++ [ComponentsHtml (RenderEmbed c) (Some 1000%Z) (Some 800%Z)],
          Ok tt).
Proof.
  intros Hkind Hpie.
  destruct (create_chart_supported (selectbox w) word_counts 20 Hkind Hpie) as [c Hc].
  exists c. split; [done|].
  rewrite (main_submitted w text lines) by done. cbv zeta. fold word_counts.
  rewrite decide_False.
  2:{ intros Heq. rewrite Heq in Hkind. by apply cloud_not_chart_kind. }
  by rewrite Hc, lift_Ok_bind.
Qed.

(** X22. When the word cloud is selected, the run embeds, at height 600,
    the contents of the very file to which it has rendered the word cloud
    of the whole table before. *)
Theorem main_embeds_cloud :
  selectbox w = lit "词云" ->
  exists before path,
    main w = (before ++ [ComponentsHtml (FileContents path) None (Some 600%Z)], Ok tt)
    /\ ChartRender (WordCloud EMPTY (items word_counts) (lit "词云")) path ∈ before
    /\ Forall (fun e => forall html width height,
                 e <> ComponentsHtml html width height) before.
Proof.
  intros Hsel. exists (analysis_events word_counts), (lit "./temp/wordcloud.html").
  split_and!.
  - rewrite (main_submitted w text lines) by done. cbv zeta. fold word_counts.
    by rewrite decide_True.
  - unfold analysis_events. rewrite !elem_of_app, !elem_of_cons. auto.
  - unfold analysis_events. apply Forall_app. split; [by repeat constructor|].
    unfold top_lines. apply List.Forall_forall.
    by intros e ([w0 c0] & <- & _)%in_map_iff.
Qed.

End CompletedRun.

(** * Properties of fetching the page *)

Section FetchText.

Variable requests_get : list Z -> result response.
Variable soup_body : list Z -> option (list (list Z)).

Lemma fragments_clean (strings : list (list Z)) :
  Forall (fun f => f <> [] /\ starts_clean f /\ ends_clean f) (fragments strings).
Proof.
  apply List.Forall_forall. intros f [Hin Hne]%filter_In.
  apply in_map_iff in Hin as (s & <- & _).
  apply negb_true_iff, bool_decide_eq_false in Hne.
  split; [done|]. split; [apply strip_starts_clean | apply strip_ends_clean].
Qed.

Lemma fragments_nil (strings : list (list Z)) :
  fragments strings = [] <-> Forall (fun s => ~ has_visible s) strings.
Proof.
  unfold fragments. induction strings as [|s strings IH]; simpl; [done|].
  case_bool_decide as Hs; simpl.
  - rewrite IH. split; [|by intros [_ ?]%Forall_cons].
    intros H. constructor; [|done]. by intros Hv%strip_visible.
  - split; [done|]. intros [H _]%Forall_cons. destruct H. by apply strip_visible.
Qed.

Lemma join_nil (sep : list Z) (l : list (list Z)) :
  Forall (fun f => f <> []) l -> join sep l = [] -> l = [].
Proof.
  destruct 1 as [|f l Hf Hl]; [done|]. simpl.
  destruct l; [done|]. by destruct f.
Qed.

Lemma join_clean (sep : list Z) (l : list (list Z)) :
  Forall (fun f => f <> [] /\ starts_clean f /\ ends_clean f) l ->
  starts_clean (join sep l) /\ ends_clean (join sep l).
Proof.
  induction 1 as [|f l (Hne & Hs & He) Hl [IHs IHe]]; [done|].
  destruct l as [|g l]; [done|].
  change (join sep (f :: g :: l)) with (f ++ sep ++ join sep (g :: l)). split.
  - destruct f; [done|]. intros c. simpl. apply Hs.
  - intros c. rewrite !last_app.
    destruct (last (join sep (g :: l))) as [d|] eqn:E;
      [intros [= <-]; by apply IHe|].
    apply last_None in E. apply join_nil in E; [done|].
    eapply Forall_impl; [exact Hl|]. by intros ? [? _].
Qed.

(** X23. [fetch_text_from_url] raises when the request raises, and raises
    an HTTP error for a response with a client or server error status,
    whatever the page holds. *)
Theorem fetch_text_from_url_error (url : list Z) (e : exn) :
  requests_get url = Raise e
  \/ (exists r, requests_get url = Ok r
                /\ (400 <= status_code r < 600)%Z /\ e = RequestException) ->
  Fetcher.fetch_text_from_url requests_get soup_body url = Raise e.
Proof.
  unfold Fetcher.fetch_text_from_url.
  intros [->|(r & -> & Hs & ->)]; [done|]. simpl.
  unfold raise_for_status.
  destruct (Z.leb_spec 400 (status_code r)), (Z.ltb_spec (status_code r) 600);
    simpl; [done|lia..].
Qed.

(** X24. For a response without error status [fetch_text_from_url] returns
    a text with no whitespace at its ends; the text is empty when the page
    has no body, and otherwise exactly when no string of the body has a
    character that is not whitespace. *)
Theorem fetch_text_from_url_text (url : list Z) (r : response) :
  requests_get url = Ok r ->
  ~ (400 <= status_code r < 600)%Z ->
  exists t,
    Fetcher.fetch_text_from_url requests_get soup_body url = Ok t
    /\ starts_clean t /\ ends_clean t
    /\ (soup_body (text r) = None -> t = [])
    /\ (forall strings, soup_body (text r) = Some strings ->
          t = join [NEWLINE] (fragments strings)
          /\ (t = [] <-> Forall (fun s => ~ has_visible s) strings)).
Proof.
  intros Hget Hstatus. unfold Fetcher.fetch_text_from_url. rewrite Hget. simpl.
  unfold raise_for_status.
  replace ((400 <=? status_code r)%Z && (status_code r <? 600)%Z) with false.
  2:{ symmetry. apply andb_false_iff.
      destruct (Z.leb_spec 400 (status_code r)); [|by left].
      right. apply Z.ltb_ge. lia. }
  simpl. destruct (soup_body (text r)) as [strings|].
  - exists (get_text strings [NEWLINE]).
    pose proof (join_clean [NEWLINE] _ (fragments_clean strings)) as [Hs He].
    split_and!; try done.
    intros ? [= <-]. split; [done|]. rewrite <- fragments_nil. split.
    + apply join_nil. eapply Forall_impl; [apply fragments_clean|]. by intros ? [? _].
    + unfold get_text. by intros ->.
  - exists []. by split_and!.
Qed.

End FetchText.

(** * Instances of the further properties *)

Section MoreScenarios.

Example scenario_get_text :
  get_text [lit " a "; lit "  "; lit "b c" ++ [NEWLINE]] [NEWLINE]
  = lit "a" ++ [NEWLINE] ++ lit "b c".
Proof. vm_compute. reflexivity. Qed.

Example scenario_pie_no_entries :
  main {| text_input := lit "http://example.org/"; selectbox := lit "饼图";
          button := true;
          fetch_text_from_url := fun _ => Ok (lit "123" ++ [NEWLINE] ++ lit "!?");
          stopwords_txt := Ok []; jieba_cut := space_cut |}
  = ([ StTitle (lit "文章URL文本分析工具");
       StSpinner (lit "正在处理...");
       ChartRender (WordCloud EMPTY [] (lit "词云")) (lit "./temp/wordcloud.html");
       StWrite (lit "词频最高的20个词：") ],
     Raise IndexError).
Proof. vm_compute. reflexivity. Qed.

Example scenario_fetch_no_body :
  Fetcher.fetch_text_from_url
    (fun _ => Ok {| status_code := 200; text := lit "<p>x</p>" |})
    (fun _ => None) (lit "http://example.org/")
  = Ok EMPTY.
Proof. reflexivity. Qed.

Lemma Counter_of_perm_witness :
  [lit "cat"; lit "sat"; lit "cat"] ≡ₚ [lit "sat"; lit "cat"; lit "cat"]
  /\ items (Counter_of [lit "cat"; lit "sat"; lit "cat"])
     ≡ₚ items (Counter_of [lit "sat"; lit "cat"; lit "cat"])
  /\ (forall w, get (Counter_of [lit "cat"; lit "sat"; lit "cat"]) w 0
                = get (Counter_of [lit "sat"; lit "cat"; lit "cat"]) w 0).
Proof.
  assert ([lit "cat"; lit "sat"; lit "cat"] ≡ₚ [lit "sat"; lit "cat"; lit "cat"])
    as Hp by apply perm_swap.
  split; [exact Hp|]. exact (Counter_of_perm _ _ Hp).
Defined.

Lemma most_common_prefix_witness :
  (3 <= 20)%Z
  /\ most_common (Counter_of demo_words) 3
     `prefix_of` most_common (Counter_of demo_words) 20.
Proof.
  assert (3 <= 20)%Z as Hn by lia.
  split; [exact Hn|]. exact (most_common_prefix _ 3 20 Hn).
Defined.

Lemma radar_scale_first_count_witness :
  head (most_common (Counter_of demo_words) 3) = Some (lit "cat", 2%Z)
  /\ exists (schema : list (list Z * Z)) (data : list Z),
       create_chart (lit "雷达图") (Counter_of demo_words) 3
       = Ok (Some (Radar schema (lit "词频") [data] (lit "雷达图")))
       /\ Forall (fun indicator => snd indicator = 2%Z) schema
       /\ Forall (fun v => (1 <= v <= 2)%Z) data.
Proof.
  assert (head (most_common (Counter_of demo_words) 3) = Some (lit "cat", 2%Z))
    as Hhead by reflexivity.
  split; [exact Hhead|].
  exact (radar_scale_first_count demo_words 3 _ _ Hhead).
Defined.

Lemma main_idle_witness :
  (text_input idle_session = [] \/ button idle_session = false)
  /\ main idle_session
     = ([ StTitle (lit "文章URL文本分析工具");
          StWarning (lit "请输入有效的URL以进行分析！") ], Ok tt).
Proof.
  assert (text_input idle_session = [] \/ button idle_session = false) as H
    by (left; reflexivity).
  split; [exact H|]. exact (main_idle idle_session H).
Defined.

Lemma main_input_error_witness :
  text_input failing_session <> []
  /\ button failing_session = true
  /\ fetch_text_from_url failing_session (text_input failing_session)
     = Raise RequestException
  /\ main failing_session
     = ([StTitle (lit "文章URL文本分析工具"); StSpinner (lit "正在处理...")],
        Raise RequestException).
Proof.
  assert (text_input failing_session <> []) as Hurl by (vm_compute; discriminate).
  split; [exact Hurl|]. split; [reflexivity|]. split; [reflexivity|].
  exact (main_input_error failing_session RequestException Hurl eq_refl
           (or_introl eq_refl)).
Defined.

Lemma demo_url_given (chart_type : list Z) : text_input (demo_session chart_type) <> [].
Proof. vm_compute. discriminate. Qed.

Lemma create_chart_pie_witness :
  most_common (Counter_of demo_words) 3 <> []
  /\ create_chart (lit "饼图") (Counter_of demo_words) 3
     = Ok (Some (Pie EMPTY
                   [(lit "cat", 2%Z); (lit "sat", 1%Z); (lit "mat", 1%Z)]
                   (lit "饼图"))).
Proof.
  assert (most_common (Counter_of demo_words) 3 <> []) as Hne
    by (vm_compute; discriminate).
  split; [exact Hne|]. exact (create_chart_pie (Counter_of demo_words) 3 Hne).
Defined.

Lemma main_after_analysis_witness :
  text_input (demo_session (lit "折线图")) <> []
  /\ button (demo_session (lit "折线图")) = true
  /\ ~ pie_without_entries (lit "折线图") (Counter_of demo_words) 20
  /\ exists tail,
       main (demo_session (lit "折线图"))
       = (analysis_events (Counter_of demo_words) ++ tail, Ok tt)
       /\ length tail <= 1.
Proof.
  assert (~ pie_without_entries (lit "折线图") (Counter_of demo_words) 20) as Hp.
  { intros [H _]. vm_compute in H. discriminate. }
  split; [apply demo_url_given|]. split; [reflexivity|]. split; [exact Hp|].
  exact (proj2 (main_after_analysis (demo_session (lit "折线图")) _ _
                  (demo_url_given _) eq_refl eq_refl eq_refl) Hp).
Defined.

Lemma main_embeds_chart_witness :
  lit "饼图" ∈ chart_kinds
  /\ ~ pie_without_entries (lit "饼图") (Counter_of demo_words) 20
  /\ text_input (demo_session (lit "饼图")) <> []
  /\ button (demo_session (lit "饼图")) = true
  /\ exists c,
       create_chart (lit "饼图") (Counter_of demo_words) 20 = Ok (Some c)
       /\ main (demo_session (lit "饼图"))
          = (analysis_events (Counter_of demo_words)
               ++ [ComponentsHtml (RenderEmbed c) (Some 1000%Z) (Some 800%Z)],
             Ok tt).
Proof.
  assert (lit "饼图" ∈ chart_kinds) as Hkind.
  { unfold chart_kinds. rewrite !elem_of_cons. auto 10. }
  assert (~ pie_without_entries (lit "饼图") (Counter_of demo_words) 20) as Hp.
  { intros [_ H]. vm_compute in H. discriminate. }
  split; [exact Hkind|]. split; [exact Hp|].
  split; [apply demo_url_given|]. split; [reflexivity|].
  exact (main_embeds_chart (demo_session (lit "饼图")) _ _
           (demo_url_given _) eq_refl eq_refl eq_refl Hkind Hp).
Defined.

Lemma main_embeds_cloud_witness :
  selectbox (demo_session (lit "词云")) = lit "词云"
  /\ text_input (demo_session (lit "词云")) <> []
  /\ button (demo_session (lit "词云")) = true
  /\ exists before path,
       main (demo_session (lit "词云"))
       = (before ++ [ComponentsHtml (FileContents path) None (Some 600%Z)], Ok tt)
       /\ ChartRender (WordCloud EMPTY (items (Counter_of demo_words)) (lit "词云")) path
          ∈ before
       /\ Forall (fun e => forall html width height,
                    e <> ComponentsHtml html width height) before.
Proof.
  split; [reflexivity|]. split; [apply demo_url_given|]. split; [reflexivity|].
  exact (main_embeds_cloud (demo_session (lit "词云")) _ _
           (demo_url_given _) eq_refl eq_refl eq_refl eq_refl).
Defined.

Lemma fetch_text_from_url_error_witness :
  (demo_get 404 (lit "http://example.org/") = Raise RequestException
   \/ exists r, demo_get 404 (lit "http://example.org/") = Ok r
                /\ (400 <= status_code r < 600)%Z /\ RequestException = RequestException)
  /\ Fetcher.fetch_text_from_url (demo_get 404) demo_body (lit "http://example.org/")
     = Raise RequestException.
Proof.
  assert (demo_get 404 (lit "http://example.org/") = Raise RequestException
          \/ exists r, demo_get 404 (lit "http://example.org/") = Ok r
                /\ (400 <= status_code r < 600)%Z /\ RequestException = RequestException)
    as H.
  { right. eexists. split; [reflexivity|]. simpl. split; [lia | reflexivity]. }
  split; [exact H|].
  exact (fetch_text_from_url_error (demo_get 404) demo_body _ _ H).
Defined.

Lemma fetch_text_from_url_text_witness :
  demo_get 200 (lit "http://example.org/")
  = Ok {| status_code := 200; text := lit "<body> a <p>b c</p></body>" |}
  /\ ~ (400 <= 200 < 600)%Z
  /\ exists t,
       Fetcher.fetch_text_from_url (demo_get 200) demo_body (lit "http://example.org/")
       = Ok t
       /\ starts_clean t /\ ends_clean t.
Proof.
  assert (~ (400 <= 200 < 600)%Z) as Hs by lia.
  split; [reflexivity|]. split; [exact Hs|].
  destruct (fetch_text_from_url_text (demo_get 200) demo_body
              (lit "http://example.org/") _ eq_refl Hs) as (t & H1 & H2 & H3 & _).
  exists t. split; [exact H1|]. split; [exact H2 | exact H3].
Defined.

End MoreScenarios.
